(** * The H -> ZZ* demonstration notebook (seminar_HiggsDemo.ipynb)

    A shallow embedding of the functions the notebook defines:
    [get_lepton_query], [get_xsec_weight], [lepton_filter],
    [HZZAnalysis.process] and [produce_all_histograms] with its inner
    [run_updates_stream].

    The notebook is glue over array, histogram and query libraries.  Their
    operations are embedded by what they do to the values the notebook hands
    them:
    - Python exceptions are an inductive type [exn]; a function that can
      raise returns a [result];
    - floating-point scalars and Lorentz vectors are the carrier of a class
      [Numeric], so that every theorem holds for whatever arithmetic the
      array library performs (no algebraic law is assumed);
    - an awkward array is a list, a jagged array a list of lists;
    - a [hist.Hist] is its axes together with the sequence of [fill] calls it
      has received (its bin contents are a function of that sequence);
    - a [func_adl] query is the filter and map it denotes. *)

From Stdlib Require Import ZArith QArith String Ascii List Lia.
From stdpp Require Import base option list strings gmap.

Local Open Scope Z_scope.
Local Open Scope string_scope.

(** ** Exceptions and the error monad *)

(** The exceptions that can cross the notebook's functions.
    [KeyboardInterrupt] derives from [BaseException] only, every other one
    from [Exception].  [Failure msg cause] is the statement
    [raise Exception(msg) from cause]. *)
Inductive exn : Type :=
| KeyError (key : string)
| IndexError (what : string)
| ZeroDivisionError
| ValueError (what : string)
| TypeError (what : string)
| KeyboardInterrupt
| Failure (msg : string) (cause : exn).

(** [isinstance(e, Exception)] *)
Definition is_Exception (e : exn) : bool :=
  match e with
  | KeyboardInterrupt => false
  | _ => true
  end.

Inductive result (A : Type) : Type :=
| Ok (a : A)
| Raise (e : exn).
Arguments Ok {A} a.
Arguments Raise {A} e.

Definition bind {A B} (r : result A) (f : A -> result B) : result B :=
  match r with
  | Ok a => f a
  | Raise e => Raise e
  end.

Notation "'let*' x ':=' c1 'in' c2" := (bind c1 (fun x => c2))
  (at level 10, x name, c1 at level 100, c2 at level 200).

(** The results of a list of computations, or the first exception. *)
Fixpoint sequence {A} (l : list (result A)) : result (list A) :=
  match l with
  | [] => Ok []
  | r :: l' => let* x := r in let* xs := sequence l' in Ok (x :: xs)
  end.

(** ** Numbers and Lorentz vectors *)

(** The arithmetic of Python floats and of the array library.  [lit q] is the
    numeric literal written [q] in the source; [is_zero] is the test Python's
    scalar division performs on its divisor. *)
Class Numeric : Type := {
  num : Type;
  lit : Q -> num;
  mul : num -> num -> num;
  div : num -> num -> num;
  is_zero : num -> bool;
  (* four-vectors of the vector behaviours attached to [events.lep] *)
  vec : Type;
  lorentz : num -> num -> num -> num -> vec;   (* from pt, eta, phi, energy *)
  vadd : vec -> vec -> vec;
  mass : vec -> num
}.

(** The term model: every operation is kept as written.  It is the instance
    the examples are evaluated in; a result computed in it shows which
    operations the code applied, in which order. *)
Module Sym.
Inductive sym : Type :=
| SLit (q : Q)
| SVar (x : string)
| SMul (a b : sym)
| SDiv (a b : sym)
| SMass (v : svec)
with svec : Type :=
| SLorentz (pt eta phi e : sym)
| SVAdd (a b : svec).

Definition sym_is_zero (a : sym) : bool :=
  match a with
  | SLit q => Qeq_bool q 0
  | _ => false
  end.
End Sym.

#[global] Instance sym_numeric : Numeric := {|
  num := Sym.sym;
  lit := Sym.SLit;
  mul := Sym.SMul;
  div := Sym.SDiv;
  is_zero := Sym.sym_is_zero;
  vec := Sym.svec;
  lorentz := Sym.SLorentz;
  vadd := Sym.SVAdd;
  mass := Sym.SMass
|}.

(** ** Array operations (numpy, awkward) *)

Section Arrays.
Context {A B C : Type}.

(** A binary operator applied element by element to two arrays; arrays of
    different lengths cannot be broadcast. *)
Definition broadcast2 (f : A -> B -> C) (a : list A) (b : list B)
  : result (list C) :=
  if Nat.eqb (length a) (length b) then Ok (zip_with f a b)
  else Raise (ValueError "cannot broadcast").

(** The entries of [a] at the positions where [mask] holds. *)
Fixpoint compress (a : list A) (mask : list bool) : list A :=
  match a, mask with
  | x :: a', b :: mask' =>
      if b then x :: compress a' mask' else compress a' mask'
  | _, _ => []
  end.

(** [array[mask]] for a boolean [mask], which must be as long as [array]
    (the array library reports its indexing failures as [ValueError]). *)
Definition getitem_mask (a : list A) (mask : list bool) : result (list A) :=
  if Nat.eqb (length a) (length mask) then Ok (compress a mask)
  else Raise (ValueError "mask length").

(** [array[:, k]] for a jagged [array]: entry [k] of every sublist; where a
    sublist has no entry [k] the array library raises its [ValueError]
    (index out of range). *)
Fixpoint getitem_col (a : list (list A)) (k : nat) : result (list A) :=
  match a with
  | [] => Ok []
  | l :: a' =>
      match l !! k with
      | Some x => let* xs := getitem_col a' k in Ok (x :: xs)
      | None => Raise (ValueError "index out of range")
      end
  end.
End Arrays.

(** A reduction along axis 0 of a list of arrays combines them position by
    position; where an array has ended, the others are kept. *)
Fixpoint zip_longer {A} (f : A -> A -> A) (a b : list A) : list A :=
  match a, b with
  | [], _ => b
  | _, [] => a
  | x :: a', y :: b' => f x y :: zip_longer f a' b'
  end.

(** The value of a 64-bit two's complement integer with the bits of [z]. *)
Definition wrap64 (z : Z) : Z := (z + 2 ^ 63) mod 2 ^ 64 - 2 ^ 63.

(** Addition of 64-bit integers: it wraps around. *)
Definition add64 (a b : Z) : Z := wrap64 (a + b).

(** The sum of the entries of one event, accumulated in 64 bits. *)
Definition sum64 (l : list Z) : Z := foldr add64 0 l.

(** [ak.sum(a, axis=1)] on integers: the library accumulates an integer
    column in 64 bits, whatever the width of its entries, and the additions
    wrap.  (For an unsigned column the accumulator is unsigned; it holds the
    same bits, and the comparisons with 0, 44, 48 and 52 below come out the
    same.) *)
Definition ak_sum_axis1 (a : list (list Z)) : list Z := map sum64 a.
Definition ak_any_axis0 (arrs : list (list bool)) : list bool :=
  foldr (zip_longer orb) [] arrs.
Definition ak_all_axis0 (arrs : list (list bool)) : list bool :=
  foldr (zip_longer andb) [] arrs.
(** [array == k] *)
Definition eq_scalar (a : list Z) (k : Z) : list bool := map (fun x => Z.eqb x k) a.

(** ** lepton_filter *)

Definition lepton_filter (lep_charge lep_type : list (list Z)) : list bool :=
  let sum_lep_charge := ak_sum_axis1 lep_charge in
  let sum_lep_type := ak_sum_axis1 lep_type in
  let good_lep_type :=
    ak_any_axis0 [eq_scalar sum_lep_type 44; eq_scalar sum_lep_type 48;
                  eq_scalar sum_lep_type 52] in
  ak_all_axis0 [eq_scalar sum_lep_charge 0; good_lep_type].

(** ** The sample name in a file name

    [re.findall(r"mc_\d+\.(.+)\.4lep", filename)[0]]: the group of the
    leftmost match.  After [mc_] the digits are taken as far as they go (the
    next character must be the dot, so no shorter run can match); the group
    [(.+)] is greedy, it is the longest non-empty run without a newline that
    is followed by [.4lep].  File names are ASCII, where [\d] is one of
    the ten digits. *)

Definition is_digit (c : ascii) : bool :=
  let n := nat_of_ascii c in (Nat.leb 48 n && Nat.leb n 57)%bool.

Definition is_newline (c : ascii) : bool := Nat.eqb (nat_of_ascii c) 10.

Fixpoint strip_prefix (p s : string) : option string :=
  match p, s with
  | EmptyString, _ => Some s
  | String a p', String b s' =>
      if Ascii.eqb a b then strip_prefix p' s' else None
  | String _ _, EmptyString => None
  end.

Fixpoint skip_digits (s : string) : string :=
  match s with
  | String c s' => if is_digit c then skip_digits s' else s
  | EmptyString => s
  end.

Fixpoint greedy_group (s : string) : option string :=
  match s with
  | EmptyString => None
  | String c s' =>
      if is_newline c then None
      else match greedy_group s' with
           | Some g => Some (String c g)
           | None =>
               match strip_prefix ".4lep" s' with
               | Some _ => Some (String c EmptyString)
               | None => None
               end
           end
  end.

(** The pattern matched at the start of [s]. *)
Definition match_here (s : string) : option string :=
  match strip_prefix "mc_" s with
  | Some (String d s1) =>
      if is_digit d then
        match strip_prefix "." (skip_digits s1) with
        | Some s2 => greedy_group s2
        | None => None
        end
      else None
  | _ => None
  end.

(** The group of the leftmost match, if the pattern matches anywhere. *)
Fixpoint re_search (s : string) : option string :=
  match match_here s with
  | Some g => Some g
  | None =>
      match s with
      | String _ s' => re_search s'
      | EmptyString => None
      end
  end.

(** [re.findall(...)[0]] *)
Definition findall_0 (filename : string) : result string :=
  match re_search filename with
  | Some g => Ok g
  | None => Raise (IndexError "list index out of range")
  end.

(** ** The files to process *)

Definition prefix : string :=
  "root://eospublic.cern.ch//eos/opendata/atlas/OutreachDatasets/2020-01-22/4lep/".

Definition z_ttbar : string := "Background $Z,t\bar{t}$".
Definition zzstar : string := "Background $ZZ^{\star}$".
Definition signal : string := "Signal ($m_H$ = 125 GeV)".

(** A Python dict keeps its keys in insertion order. *)
Definition fileset : list (string * list string) :=
  [ ("Data",
     [ prefix ++ "Data/data_A.4lep.root";
       prefix ++ "Data/data_B.4lep.root";
       prefix ++ "Data/data_C.4lep.root";
       prefix ++ "Data/data_D.4lep.root" ]);
    (z_ttbar,
     [ prefix ++ "MC/mc_361106.Zee.4lep.root";
       prefix ++ "MC/mc_361107.Zmumu.4lep.root";
       prefix ++ "MC/mc_410000.ttbar_lep.4lep.root" ]);
    (zzstar, [ prefix ++ "MC/mc_363490.llll.4lep.root" ]);
    (signal,
     [ prefix ++ "MC/mc_345060.ggH125_ZZ4lep.4lep.root";
       prefix ++ "MC/mc_344235.VBFH125_ZZ4lep.4lep.root";
       prefix ++ "MC/mc_341964.WH125_ZZ4lep.4lep.root";
       prefix ++ "MC/mc_341947.ZH125_ZZ4lep.4lep.root" ]) ].

Definition keys {V} (d : list (string * V)) : list string := fst <$> d.

Definition bin_edge_low : Z := 80.
Definition bin_edge_high : Z := 250.
Definition num_bins : nat := 34.

(** ** Data model *)

(** The branches of the input tree that the query reads, one record per
    event. *)
Module Tree.
Record event `{Numeric} : Type := {
  lep_n : Z;
  lep_pt : list num;
  lep_eta : list num;
  lep_phi : list num;
  lep_E : list num;
  lep_charge : list Z;
  lep_type : list Z;
  mcWeight : num;
  scaleFactor_ELE : num;
  scaleFactor_MUON : num;
  scaleFactor_LepTRIGGER : num;
  scaleFactor_PILEUP : num
}.

(** The tree stores [lep_n] leptons per event: every per-lepton branch has
    [lep_n] entries. *)
Definition well_formed `{Numeric} (e : event) : Prop :=
  Z.of_nat (length (lep_pt e)) = lep_n e /\
  Z.of_nat (length (lep_eta e)) = lep_n e /\
  Z.of_nat (length (lep_phi e)) = lep_n e /\
  Z.of_nat (length (lep_E e)) = lep_n e /\
  Z.of_nat (length (lep_charge e)) = lep_n e /\
  Z.of_nat (length (lep_type e)) = lep_n e.
End Tree.

(** The dictionary the query selects for an event, one field per key. *)
Module Column.
Record row `{Numeric} : Type := {
  lep_pt : list num;
  lep_eta : list num;
  lep_phi : list num;
  lep_energy : list num;
  lep_charge : list Z;
  lep_typeid : list Z;
  mcWeight : num;
  scaleFactor : num;
  scaleFactorUP : num;
  scaleFactorDOWN : num
}.
End Column.

(** An entry of [events.lep]. *)
Record Lepton `{Numeric} : Type := {
  pt : num;
  eta : num;
  phi : num;
  energy : num;
  charge : Z;
  typeid : Z
}.

(** The four-vector a lepton record behaves as. *)
Definition p4 `{Numeric} (l : Lepton) : vec :=
  lorentz (pt l) (eta l) (phi l) (energy l).

Record Event `{Numeric} : Type := {
  lep : list Lepton;
  mcWeight : num;
  scaleFactor : num;
  scaleFactorUP : num;
  scaleFactorDOWN : num
}.

Record Metadata : Type := {
  dataset_category : string;
  filename : string
}.

(** A batch handed to the processor: [events.metadata] and the events. *)
Record Events `{Numeric} : Type := {
  metadata : Metadata;
  rows : list Event
}.

(** ** get_lepton_query *)

Section Query.
Context `{Numeric}.

(** [ObjectStream.Where] and [ObjectStream.Select] denote a filter and a
    map over the stream of events. *)
Definition Where {A} (p : A -> bool) (source : list A) : list A :=
  List.filter p source.
Definition Select {A B} (f : A -> B) (source : list A) : list B :=
  map f source.

Definition get_lepton_query (source : list Tree.event) : list Column.row :=
  Select
    (fun e =>
       {| Column.lep_pt := Tree.lep_pt e;
          Column.lep_eta := Tree.lep_eta e;
          Column.lep_phi := Tree.lep_phi e;
          Column.lep_energy := Tree.lep_E e;
          Column.lep_charge := Tree.lep_charge e;
          Column.lep_typeid := Tree.lep_type e;
          Column.mcWeight := Tree.mcWeight e;
          Column.scaleFactor :=
            mul (mul (mul (Tree.scaleFactor_ELE e) (Tree.scaleFactor_MUON e))
                     (Tree.scaleFactor_LepTRIGGER e))
                (Tree.scaleFactor_PILEUP e);
          Column.scaleFactorUP :=
            mul (mul (mul (mul (Tree.scaleFactor_ELE e)
                               (Tree.scaleFactor_MUON e))
                          (Tree.scaleFactor_LepTRIGGER e))
                     (Tree.scaleFactor_PILEUP e))
                (lit (11 # 10));
          Column.scaleFactorDOWN :=
            mul (mul (mul (mul (Tree.scaleFactor_ELE e)
                               (Tree.scaleFactor_MUON e))
                          (Tree.scaleFactor_LepTRIGGER e))
                     (Tree.scaleFactor_PILEUP e))
                (lit (9 # 10)) |})
    (Where (fun e => Z.eqb (Tree.lep_n e) 4) source).

(** The schema the processor reads the delivered columns with: the
    [lep_*] columns of an event are zipped into the records of
    [events.lep], which needs them to have one length. *)
Definition zip_leptons (r : Column.row) : result (list Lepton) :=
  let n := length (Column.lep_pt r) in
  if (Nat.eqb (length (Column.lep_eta r)) n
      && Nat.eqb (length (Column.lep_phi r)) n
      && Nat.eqb (length (Column.lep_energy r)) n
      && Nat.eqb (length (Column.lep_charge r)) n
      && Nat.eqb (length (Column.lep_typeid r)) n)%bool
  then Ok (zip_with (fun f x => f x)
            (zip_with (fun f x => f x)
              (zip_with (fun f x => f x)
                (zip_with (fun f x => f x)
                  (zip_with (fun f x => f x)
                    (map (Build_Lepton _) (Column.lep_pt r))
                    (Column.lep_eta r))
                  (Column.lep_phi r))
                (Column.lep_energy r))
              (Column.lep_charge r))
            (Column.lep_typeid r))
  else Raise (ValueError "cannot zip").

Definition event_of_row (r : Column.row) : result Event :=
  let* leptons := zip_leptons r in
  Ok {| lep := leptons;
        mcWeight := Column.mcWeight r;
        scaleFactor := Column.scaleFactor r;
        scaleFactorUP := Column.scaleFactorUP r;
        scaleFactorDOWN := Column.scaleFactorDOWN r |}.

Definition events_of_rows (md : Metadata) (rs : list Column.row)
  : result Events :=
  let* evs := sequence (map event_of_row rs) in
  Ok {| metadata := md; rows := evs |}.
End Query.

(** ** get_xsec_weight *)

(** An entry of the cross-section table [infofile.infos] (the table itself
    is not part of the notebook; the functions take it as an argument). *)
Record Info `{Numeric} : Type := {
  xsec : num;
  sumw : num;
  red_eff : num
}.

Section Weight.
Context `{Numeric}.

(** Python's [/] on scalars. *)
Definition truediv (a b : num) : result num :=
  if is_zero b then Raise ZeroDivisionError else Ok (div a b).

(** [d[key]] on a dict. *)
Definition getitem {V} (d : gmap string V) (key : string) : result V :=
  match d !! key with
  | Some v => Ok v
  | None => Raise (KeyError key)
  end.

Definition get_xsec_weight (infos : gmap string Info) (sample : string)
  : result num :=
  let lumi := lit 10000 in
  let* xsec_map := getitem infos sample in
  truediv (mul lumi (xsec xsec_map))
          (mul (sumw xsec_map) (red_eff xsec_map)).
End Weight.

(** ** Histograms *)

Module Hist.
Inductive Axis : Type :=
| Reg (bins : nat) (lo hi : Z) (name label : string)
| StrCat (categories : list string) (name : string).

#[global] Instance Axis_eq_dec : EqDecision Axis.
Proof. solve_decision. Defined.

Definition axis_name (a : Axis) : string :=
  match a with
  | Reg _ _ _ name _ => name
  | StrCat _ name => name
  end.

(** The keyword arguments of one call of [fill]. *)
Record Fill `{Numeric} : Type := {
  mllll : list num;
  dataset : option string;
  variation : option string;
  weight : option (list num)
}.

(** A histogram with weighted storage: its axes and the calls of [fill] it
    has received, oldest first. *)
Record t `{Numeric} : Type := {
  axes : list Axis;
  fills : list Fill
}.

Section Ops.
Context `{Numeric}.

Definition new (axs : list Axis) : t := {| axes := axs; fills := [] |}.

Definition fill_names (f : Fill) : list string :=
  "mllll" :: (match dataset f with Some _ => ["dataset"] | None => [] end)
          ++ (match variation f with Some _ => ["variation"] | None => [] end).

(** [h.fill(...)]: one value per axis must be given, and the weights, when
    given, are one per entry. *)
Definition fill (h : t) (f : Fill) : result t :=
  if bool_decide (fill_names f = axis_name <$> axes h) then
    if match weight f with
       | Some w => Nat.eqb (length w) (length (mllll f))
       | None => true
       end
    then Ok {| axes := axes h; fills := fills h ++ [f] |}
    else Raise (ValueError "spans must have compatible lengths")
  else Raise (TypeError "missing or unexpected axis values").

(** [h1 + h2] *)
Definition add (h1 h2 : t) : result t :=
  if bool_decide (axes h1 = axes h2)
  then Ok {| axes := axes h1; fills := fills h1 ++ fills h2 |}
  else Raise (ValueError "axes not mergeable").

(** The weight of each entry of a call: 1 when none was given. *)
Definition weights (f : Fill) : list num :=
  match weight f with
  | Some w => w
  | None => replicate (length (mllll f)) (lit 1)
  end.

(** The entries a histogram has accumulated: value, categories and
    weight of each. *)
Definition entries (h : t)
  : list (num * option string * option string * num) :=
  fills h ≫= fun f =>
    zip_with (fun x w => (x, dataset f, variation f, w)) (mllll f) (weights f).
End Ops.
End Hist.

(** ** HZZAnalysis.process *)

(** The dictionary [process] returns. *)
Record Output `{Numeric} : Type := {
  data : Hist.t;
  MC : Hist.t
}.

Module HZZAnalysis.
Section Process.
Context `{Numeric}.
Variable infos : gmap string Info.

Definition data_axes : list Hist.Axis :=
  [ Hist.Reg num_bins bin_edge_low bin_edge_high "mllll"
      "$\mathrm{m_{4l}}$ [GeV]" ].

Definition variations : list string :=
  [ "nominal"; "scaleFactorUP"; "scaleFactorDOWN"; "m4lUP"; "m4lDOWN" ].

Definition MC_axes : list Hist.Axis :=
  [ Hist.Reg num_bins bin_edge_low bin_edge_high "mllll"
      "$\mathrm{m_{4l}}$ [GeV]";
    Hist.StrCat
      (List.filter (fun k => negb (String.eqb k "Data")) (keys fileset))
      "dataset";
    Hist.StrCat variations "variation" ].

(** The four-lepton invariant mass of every event, in GeV. *)
Definition calc_mllll (leptons : list (list Lepton)) : result (list num) :=
  let* l0 := getitem_col leptons 0 in
  let* l1 := getitem_col leptons 1 in
  let* s01 := broadcast2 vadd (p4 <$> l0) (p4 <$> l1) in
  let* l2 := getitem_col leptons 2 in
  let* s012 := broadcast2 vadd s01 (p4 <$> l2) in
  let* l3 := getitem_col leptons 3 in
  let* s0123 := broadcast2 vadd s012 (p4 <$> l3) in
  Ok ((fun v => div (mass v) (lit 1000)) <$> s0123).

Definition process (events : Events) : result Output :=
  let dataset_category := dataset_category (metadata events) in
  let leptons := lep <$> rows events in
  let* selected := getitem_mask (rows events)
               (lepton_filter (map (map charge) leptons)
                              (map (map typeid) leptons)) in
  let events := {| metadata := metadata events; rows := selected |} in
  let leptons := lep <$> rows events in
  let* mllll := calc_mllll leptons in
  let mllllhist_data := Hist.new data_axes in
  let mllllhist_MC := Hist.new MC_axes in
  if String.eqb dataset_category "Data" then
    let* mllllhist_data := Hist.fill mllllhist_data
      {| Hist.mllll := mllll; Hist.dataset := None;
         Hist.variation := None; Hist.weight := None |} in
    Ok {| data := mllllhist_data; MC := mllllhist_MC |}
  else
    let* sample := findall_0 (filename (metadata events)) in
    let* xsec_weight := get_xsec_weight infos sample in
    let basic_weight := mul xsec_weight <$> (mcWeight <$> rows events) in
    let* totalWeights := broadcast2 mul basic_weight (scaleFactor <$> rows events) in
    let* totalWeightsUp :=
      broadcast2 mul basic_weight (scaleFactorUP <$> rows events) in
    let* totalWeightsDown :=
      broadcast2 mul basic_weight (scaleFactorDOWN <$> rows events) in
    let* mllllhist_MC := Hist.fill mllllhist_MC
      {| Hist.mllll := mllll; Hist.dataset := Some dataset_category;
         Hist.variation := Some "nominal";
         Hist.weight := Some totalWeights |} in
    let* mllllhist_MC := Hist.fill mllllhist_MC
      {| Hist.mllll := mllll; Hist.dataset := Some dataset_category;
         Hist.variation := Some "scaleFactorUP";
         Hist.weight := Some totalWeightsUp |} in
    let* mllllhist_MC := Hist.fill mllllhist_MC
      {| Hist.mllll := mllll; Hist.dataset := Some dataset_category;
         Hist.variation := Some "scaleFactorDOWN";
         Hist.weight := Some totalWeightsDown |} in
    let* mllllhist_MC := Hist.fill mllllhist_MC
      {| Hist.mllll := (fun m => mul m (lit (101 # 100))) <$> mllll;
         Hist.dataset := Some dataset_category;
         Hist.variation := Some "m4lUP";
         Hist.weight := Some totalWeights |} in
    let* mllllhist_MC := Hist.fill mllllhist_MC
      {| Hist.mllll := (fun m => mul m (lit (99 # 100))) <$> mllll;
         Hist.dataset := Some dataset_category;
         Hist.variation := Some "m4lDOWN";
         Hist.weight := Some totalWeights |} in
    Ok {| data := mllllhist_data; MC := mllllhist_MC |}.
End Process.
End HZZAnalysis.
Import HZZAnalysis.

(** ** produce_all_histograms *)

(** An asynchronous generator that ends: the items it yields, then either
    the end of the iteration or an exception. *)
Record stream (A : Type) : Type := {
  yielded : list A;
  raised : option exn
}.
Arguments yielded {A} s.
Arguments raised {A} s.

(** What [sum] has accumulated: its start value [0], or a histogram. *)
Inductive total `{Numeric} : Type :=
| Zero
| Histogram (h : Hist.t).

(** The dictionary [produce_all_histograms] returns. *)
Record Histograms `{Numeric} : Type := {
  full_data_histogram : total;
  full_mc_histogram : total
}.

Section Gather.
Context {A : Type}.

(** The exception of the first awaitable, in [order], that raised. *)
Fixpoint first_raised (order : list nat) (aws : list (result A))
  : option exn :=
  match order with
  | [] => None
  | i :: order' =>
      match aws !! i with
      | Some (Raise e) => Some e
      | _ => first_raised order' aws
      end
  end.

(** [await asyncio.gather] of the awaitables [aws], which complete in the order
    [order] (a list of their positions): the exception of the first one
    to raise is propagated; when none raises, the results come in the
    order of [aws]. *)
Definition gather (order : list nat) (aws : list (result A))
  : result (list A) :=
  match first_raised order aws with
  | Some e => Raise e
  | None => sequence aws
  end.
End Gather.

Section Produce.
Context `{Numeric}.

(** [0 + h] is [h]; two histograms are added bin by bin. *)
Definition radd (acc : total) (h : Hist.t) : result total :=
  match acc with
  | Zero => Ok (Histogram h)
  | Histogram g => let* s := Hist.add g h in Ok (Histogram s)
  end.

Fixpoint sum_from (acc : total) (l : list Hist.t) : result total :=
  match l with
  | [] => Ok acc
  | h :: l' => let* acc' := radd acc h in sum_from acc' l'
  end.

(** Python's [sum(l)] *)
Definition sum (l : list Hist.t) : result total := sum_from Zero l.

(** [h[key]] for an item a stream ended with; [None] has no items. *)
Definition subscript {B} (key : Output -> B) (h : option Output) : result B :=
  match h with
  | Some o => Ok (key o)
  | None => Raise (TypeError "'NoneType' object is not subscriptable")
  end.

Definition run_updates_stream (accumulator_stream : stream Output)
    (name : string) : result (option Output) :=
  let coffea_info := last (yielded accumulator_stream) in
  match raised accumulator_stream with
  | Some e =>
      if is_Exception e
      then Raise (Failure ("Failure while processing " ++ name) e)
      else Raise e
  | None => Ok coffea_info
  end.

(** The parts of the pipeline that live outside the notebook: the data
    sources [utils.make_datasource] builds, the category recorded in a
    source's metadata, the stream of accumulated outputs the executor
    produces for a processor and a source, and the order in which the
    gathered jobs complete. *)
Variable DataSource : Type.
Variable make_datasource :
  list (string * list string) -> string ->
  (list Tree.event -> list Column.row) -> DataSource.
Variable source_category : DataSource -> string.
Variable execute : (Events -> result Output) -> DataSource -> stream Output.
Variable order : list nat.
Variable infos : gmap string Info.

Definition datasources (fs : list (string * list string)) : list DataSource :=
  (fun ds_name => make_datasource fs ds_name get_lepton_query) <$> keys fs.

(** The jobs handed to [asyncio.gather], one per data source. *)
Definition jobs (fs : list (string * list string))
  : list (result (option Output)) :=
  (fun source =>
     run_updates_stream (execute (process infos) source)
                        (source_category source)) <$> datasources fs.

(** [produce_all_histograms], for the files [fs] (the notebook's global
    [fileset]). *)
Definition produce_all_histograms_for (fs : list (string * list string))
  : result Histograms :=
  let* all_histogram_dicts := gather order (jobs fs) in
  let* datas := sequence (subscript data <$> all_histogram_dicts) in
  let* full_data_histogram := sum datas in
  let* mcs := sequence (subscript MC <$> all_histogram_dicts) in
  let* full_mc_histogram := sum mcs in
  Ok {| full_data_histogram := full_data_histogram;
        full_mc_histogram := full_mc_histogram |}.

Definition produce_all_histograms : result Histograms :=
  produce_all_histograms_for fileset.

(** The stream of the job for the category [ds_name] ends without an
    exception, with the item [h]. *)
Definition ends_with (fs : list (string * list string)) (ds_name : string)
    (h : Output) : Prop :=
  let s := execute (process infos)
             (make_datasource fs ds_name get_lepton_query) in
  raised s = None /\ last (yielded s) = Some h.
End Produce.

(** ** Vocabulary of the statements *)

Section Vocabulary.
Context `{Numeric}.

(** The exact sum of the entries of one event. *)
Definition total_of (l : list Z) : Z := foldr Z.add 0 l.

(** How many leptons of an event have the type [ty] (11 for an electron,
    13 for a muon). *)
Definition count_type (ty : Z) (lep_type : list Z) : nat :=
  length (List.filter (Z.eqb ty) lep_type).

(** The entries of one event in a 32-bit column, signed or unsigned: each
    fits 32 bits, and there are fewer than 2^31 of them. *)
Definition column32 (l : list Z) : Prop :=
  Forall (fun x => - 2 ^ 31 <= x < 2 ^ 32) l /\ Z.of_nat (length l) < 2 ^ 31.

(** The selection, event by event, on the sums as the library computes
    them. *)
Definition passes (lep_charge lep_type : list Z) : bool :=
  Z.eqb (sum64 lep_charge) 0
  && (Z.eqb (sum64 lep_type) 44 || Z.eqb (sum64 lep_type) 48
      || Z.eqb (sum64 lep_type) 52).

Definition selected (events : Events) : list Event :=
  List.filter (fun e => passes (charge <$> lep e) (typeid <$> lep e))
              (rows events).

(** The sum of the first four leptons' four-vectors. *)
Definition four_vector_sum (l : list Lepton) : option vec :=
  match l with
  | a :: b :: c :: d :: _ =>
      Some (vadd (vadd (vadd (p4 a) (p4 b)) (p4 c)) (p4 d))
  | _ => None
  end.

Definition event_mllll (e : Event) : option num :=
  (fun v => div (mass v) (lit 1000)) <$> four_vector_sum (lep e).

(** Every event of the batch has exactly four leptons. *)
Definition four_leptons (events : Events) : Prop :=
  Forall (fun e => length (lep e) = 4%nat) (rows events).

(** The file name of the batch names a sample of the table whose weight
    can be computed. *)
Definition sample_known (infos : gmap string Info) (events : Events)
    (sample : string) (info : Info) : Prop :=
  findall_0 (filename (metadata events)) = Ok sample /\
  infos !! sample = Some info /\
  is_zero (mul (sumw info) (red_eff info)) = false.

(** The weight of the sample, as the source writes it. *)
Definition xsec_weight_of (info : Info) : num :=
  div (mul (lit 10000) (xsec info)) (mul (sumw info) (red_eff info)).

(** The weights of the events [evs] for the sample weight [w], with the
    scale factor read from the column [sf]: [(w * mcWeight) * sf]. *)
Definition event_weights (sf : Event -> num) (w : num) (evs : list Event)
  : list num :=
  (fun e => mul (mul w (mcWeight e)) (sf e)) <$> evs.

(** The five calls of [fill] for a simulated batch of category [cat]
    whose selected events [evs] have the masses [mllll]. *)
Definition MC_fills (cat : string) (mllll : list num) (evs : list Event)
    (w : num) : list Hist.Fill :=
  [ {| Hist.mllll := mllll; Hist.dataset := Some cat;
       Hist.variation := Some "nominal";
       Hist.weight := Some (event_weights scaleFactor w evs) |};
    {| Hist.mllll := mllll; Hist.dataset := Some cat;
       Hist.variation := Some "scaleFactorUP";
       Hist.weight := Some (event_weights scaleFactorUP w evs) |};
    {| Hist.mllll := mllll; Hist.dataset := Some cat;
       Hist.variation := Some "scaleFactorDOWN";
       Hist.weight := Some (event_weights scaleFactorDOWN w evs) |};
    {| Hist.mllll := (fun m => mul m (lit (101 # 100))) <$> mllll;
       Hist.dataset := Some cat;
       Hist.variation := Some "m4lUP";
       Hist.weight := Some (event_weights scaleFactor w evs) |};
    {| Hist.mllll := (fun m => mul m (lit (99 # 100))) <$> mllll;
       Hist.dataset := Some cat;
       Hist.variation := Some "m4lDOWN";
       Hist.weight := Some (event_weights scaleFactor w evs) |} ].

(** What a call of [fill] looks like, apart from its numbers: the
    variation it names and whether it passes weights. *)
Definition fill_shape (f : Hist.Fill) : option string * bool :=
  (Hist.variation f, bool_decide (is_Some (Hist.weight f))).

(** The calls of [fill] behind an output, histogram by histogram. *)
Definition fill_trace (out : Output)
  : list (option string * bool) * list (option string * bool) :=
  (fill_shape <$> Hist.fills (data out), fill_shape <$> Hist.fills (MC out)).

(** The histogram [sum] arrives at for histograms with the axes [axs]:
    all their calls of [fill], in the order of the list; the start value
    when there is none. *)
Definition merged (axs : list Hist.Axis) (hs : list Hist.t) : total :=
  match hs with
  | [] => Zero
  | _ :: _ =>
      Histogram {| Hist.axes := axs; Hist.fills := hs ≫= Hist.fills |}
  end.

(** An output with the axes [process] creates. *)
Definition process_axes (out : Output) : Prop :=
  Hist.axes (data out) = data_axes /\ Hist.axes (MC out) = MC_axes.

Definition is_Failure (e : exn) : bool :=
  match e with
  | Failure _ _ => true
  | _ => false
  end.
End Vocabulary.

(** A batch in the term model, for the examples: two events of four
    leptons, the first of which passes the selection. *)
Module Sample.
Import Sym.

Definition lepton (n : string) (q t : Z) : Lepton :=
  {| pt := SVar (n ++ ".pt"); eta := SVar (n ++ ".eta");
     phi := SVar (n ++ ".phi"); energy := SVar (n ++ ".E");
     charge := q; typeid := t |}.

Definition ev1 : Event :=
  {| lep := [lepton "a" 1 11; lepton "b" (-1) 11;
             lepton "c" 1 13; lepton "d" (-1) 13];
     mcWeight := SVar "w1"; scaleFactor := SVar "sf1";
     scaleFactorUP := SVar "up1"; scaleFactorDOWN := SVar "down1" |}.

Definition ev2 : Event :=
  {| lep := [lepton "e" 1 11; lepton "f" 1 11;
             lepton "g" 1 13; lepton "h" (-1) 13];
     mcWeight := SVar "w2"; scaleFactor := SVar "sf2";
     scaleFactorUP := SVar "up2"; scaleFactorDOWN := SVar "down2" |}.

Definition ggH : Info :=
  {| xsec := SVar "xsec"; sumw := SVar "sumw"; red_eff := SVar "red_eff" |}.

Definition infos : gmap string Info := {[ "ggH125_ZZ4lep" := ggH ]}.

Definition batch (category : string) : Events :=
  {| metadata :=
       {| dataset_category := category;
          filename := prefix ++ "MC/mc_345060.ggH125_ZZ4lep.4lep.root" |};
     rows := [ev1; ev2] |}.

(** A batch without events. *)
Definition no_events (category : string) : Events :=
  {| metadata :=
       {| dataset_category := category;
          filename := prefix ++ "MC/mc_345060.ggH125_ZZ4lep.4lep.root" |};
     rows := [] |}.

(** An event of the input tree, with [n] leptons recorded and the given
    charges and types. *)
Definition tree_event (n : Z) (qs ts : list Z) : Tree.event :=
  {| Tree.lep_n := n;
     Tree.lep_pt := (fun _ => SVar "pt") <$> qs;
     Tree.lep_eta := (fun _ => SVar "eta") <$> qs;
     Tree.lep_phi := (fun _ => SVar "phi") <$> qs;
     Tree.lep_E := (fun _ => SVar "E") <$> qs;
     Tree.lep_charge := qs;
     Tree.lep_type := ts;
     Tree.mcWeight := SVar "w";
     Tree.scaleFactor_ELE := SVar "ele";
     Tree.scaleFactor_MUON := SVar "muon";
     Tree.scaleFactor_LepTRIGGER := SVar "trig";
     Tree.scaleFactor_PILEUP := SVar "pileup" |}.

(** An executor that runs the processor on one batch per source, the
    sources being the category names. *)
Definition execute (processor : Events -> result Output) (source : string)
  : stream Output :=
  match processor (batch source) with
  | Ok out => {| yielded := [out]; raised := None |}
  | Raise e => {| yielded := []; raised := Some e |}
  end.

Definition output_of (category : string) : Output :=
  match process infos (batch category) with
  | Ok out => out
  | Raise _ => {| data := Hist.new []; MC := Hist.new [] |}
  end.

Definition tree : list Tree.event :=
  [ tree_event 4 [1; -1; 1; -1] [11; 11; 13; 13];
    tree_event 3 [1; -1; 1] [11; 11; 13];
    tree_event 4 [1; 1; 1; -1] [13; 13; 13; 13] ].
End Sample.

(** ** Vocabulary of the further statements *)

(** Every character of [s] satisfies [p]. *)
Fixpoint string_forallb (p : ascii -> bool) (s : string) : bool :=
  match s with
  | EmptyString => true
  | String c s' => p c && string_forallb p s'
  end.

Section Pipeline.
Context `{Numeric}.

(** The batch [events] with the events [rs] in place of its own. *)
Definition with_rows (events : Events) (rs : list Event) : Events :=
  {| metadata := metadata events; rows := rs |}.

(** The product of the four scale factors of an event of the tree. *)
Definition scale_factor_product (e : Tree.event) : num :=
  mul (mul (mul (Tree.scaleFactor_ELE e) (Tree.scaleFactor_MUON e))
           (Tree.scaleFactor_LepTRIGGER e))
      (Tree.scaleFactor_PILEUP e).

(** The events of the tree that pass both cuts: four leptons recorded, and
    the selection on charges and types. *)
Definition tree_selected (source : list Tree.event) : list Tree.event :=
  List.filter
    (fun e => Z.eqb (Tree.lep_n e) 4
              && passes (Tree.lep_charge e) (Tree.lep_type e))
    source.

End Pipeline.

(** * Properties *)

(** ** The error monad and the arrays *)

Lemma zip_longer_lookup {A} (f : A -> A -> A) (a b : list A) (i : nat) :
  zip_longer f a b !! i =
    match a !! i, b !! i with
    | Some x, Some y => Some (f x y)
    | Some x, None => Some x
    | None, o => o
    end.
Proof.
  revert b i. induction a as [|x a IH]; intros [|y b] [|i]; simpl; auto.
  destruct (a !! i); reflexivity.
Qed.

Lemma zip_longer_length {A} (f : A -> A -> A) (a b : list A) :
  length (zip_longer f a b) = Nat.max (length a) (length b).
Proof.
  revert b. induction a as [|x a IH]; intros [|y b]; simpl; auto.
Qed.

Lemma zip_longer_nil_r {A} (f : A -> A -> A) (a : list A) :
  zip_longer f a [] = a.
Proof. destruct a; reflexivity. Qed.

Lemma lepton_filter_cons (c t : list Z) (cs ts : list (list Z)) :
  lepton_filter (c :: cs) (t :: ts) = passes c t :: lepton_filter cs ts.
Proof.
  unfold lepton_filter, ak_all_axis0, ak_any_axis0, passes, total_of; simpl.
  rewrite !zip_longer_nil_r. simpl.
  rewrite orb_assoc. reflexivity.
Qed.

Lemma lepton_filter_lookup (cs ts : list (list Z)) (i : nat) (c t : list Z) :
  cs !! i = Some c -> ts !! i = Some t ->
  lepton_filter cs ts !! i = Some (passes c t).
Proof.
  intros Hc Ht.
  unfold lepton_filter, ak_all_axis0, ak_any_axis0, ak_sum_axis1, eq_scalar.
  simpl. rewrite !zip_longer_nil_r.
  rewrite !zip_longer_lookup, !list_lookup_fmap, Hc, Ht. simpl.
  unfold passes, total_of. rewrite orb_assoc. reflexivity.
Qed.

Lemma lepton_filter_length (cs ts : list (list Z)) :
  length (lepton_filter cs ts) = Nat.max (length cs) (length ts).
Proof.
  unfold lepton_filter, ak_all_axis0, ak_any_axis0, ak_sum_axis1, eq_scalar.
  simpl. rewrite !zip_longer_nil_r, !zip_longer_length, !length_map. lia.
Qed.

(** ** lepton_filter *)

Lemma four_types_sum (t : list Z) :
  length t = 4%nat -> Forall (fun x => x = 11 \/ x = 13) t ->
  (total_of t = 44 <-> count_type 11 t = 4%nat /\ count_type 13 t = 0%nat) /\
  (total_of t = 48 <-> count_type 11 t = 2%nat /\ count_type 13 t = 2%nat) /\
  (total_of t = 52 <-> count_type 11 t = 0%nat /\ count_type 13 t = 4%nat).
Proof.
  intros Hlen Hall.
  destruct t as [|a [|b [|c [|d [|? ?]]]]]; try discriminate.
  repeat match goal with
         | H : Forall _ (_ :: _) |- _ => apply Forall_cons_1 in H; destruct H
         end.
  repeat match goal with
         | H : _ \/ _ |- _ => destruct H
         end; subst; vm_compute; intuition (discriminate || reflexivity).
Qed.

Lemma wrap64_small (z : Z) : - 2 ^ 63 <= z < 2 ^ 63 -> wrap64 z = z.
Proof. intros Hz. unfold wrap64. rewrite Z.mod_small by lia. lia. Qed.

Lemma add64_wrap_r (x y : Z) : add64 x (wrap64 y) = wrap64 (x + y).
Proof.
  unfold add64, wrap64. f_equal.
  replace (x + ((y + 2 ^ 63) mod 2 ^ 64 - 2 ^ 63) + 2 ^ 63)
    with (x + (y + 2 ^ 63) mod 2 ^ 64) by lia.
  rewrite Zplus_mod_idemp_r. f_equal. lia.
Qed.

(** Accumulating in 64 bits gives the exact sum, wrapped once. *)
Lemma sum64_total (l : list Z) : sum64 l = wrap64 (total_of l).
Proof.
  induction l as [|x l IH]; [reflexivity|].
  cbn [sum64 total_of foldr]. fold (sum64 l). fold (total_of l).
  rewrite IH. apply add64_wrap_r.
Qed.

Lemma total_of_bounds (l : list Z) :
  Forall (fun x => - 2 ^ 31 <= x < 2 ^ 32) l ->
  - 2 ^ 31 * Z.of_nat (length l) <= total_of l <= 2 ^ 32 * Z.of_nat (length l).
Proof.
  induction 1 as [|x l Hx _ IH]; [cbn; lia|].
  cbn [total_of foldr length]. fold (total_of l).
  rewrite Nat2Z.inj_succ. lia.
Qed.

(** The sum of a 32-bit column does not wrap. *)
Lemma sum64_exact (l : list Z) : column32 l -> sum64 l = total_of l.
Proof.
  intros [Hall Hlen]. rewrite sum64_total. apply wrap64_small.
  pose proof (total_of_bounds l Hall). lia.
Qed.

(** C2. The mask [lepton_filter] computes holds at an event exactly when the
    event's lepton charges sum to 0 and its lepton types sum to 44, 48 or
    52, the sums being those of 64-bit integers; for the 32-bit columns of
    the lepton charges and types these are the exact sums.  For four leptons
    that are electrons (11) or muons (13) the three sums are those of four
    electrons, of two electrons and two muons, and of four muons. *)
Theorem lepton_filter_keeps (lep_charge lep_type : list (list Z)) (i : nat)
    (c t : list Z) :
  lep_charge !! i = Some c -> lep_type !! i = Some t ->
  (exists keep : bool,
      lepton_filter lep_charge lep_type !! i = Some keep /\
      (keep = true <->
       wrap64 (total_of c) = 0 /\
       (wrap64 (total_of t) = 44 \/ wrap64 (total_of t) = 48 \/
        wrap64 (total_of t) = 52)) /\
      (column32 c -> column32 t ->
       (keep = true <->
        total_of c = 0 /\
        (total_of t = 44 \/ total_of t = 48 \/ total_of t = 52)))) /\
  (length t = 4%nat -> Forall (fun x => x = 11 \/ x = 13) t ->
   (total_of t = 44 <-> count_type 11 t = 4%nat /\ count_type 13 t = 0%nat) /\
   (total_of t = 48 <-> count_type 11 t = 2%nat /\ count_type 13 t = 2%nat) /\
   (total_of t = 52 <-> count_type 11 t = 0%nat /\ count_type 13 t = 4%nat)).
Proof.
  intros Hc Ht. split; [|apply four_types_sum].
  exists (passes c t). split; [by apply lepton_filter_lookup|].
  assert (passes c t = true <->
          sum64 c = 0 /\ (sum64 t = 44 \/ sum64 t = 48 \/ sum64 t = 52)) as Hp.
  { unfold passes. rewrite andb_true_iff, !orb_true_iff, !Z.eqb_eq. tauto. }
  split.
  - rewrite Hp, !sum64_total. reflexivity.
  - intros Hc32 Ht32. rewrite Hp, (sum64_exact c Hc32), (sum64_exact t Ht32).
    reflexivity.
Qed.

Lemma lepton_filter_keeps_witness :
  exists keep : bool,
    lepton_filter [[1; -1; 1; -1]; [1; 1; 1; -1]]
                  [[11; 11; 13; 13]; [13; 13; 13; 13]] !! 0%nat = Some keep /\
    (keep = true <->
     total_of [1; -1; 1; -1] = 0 /\
     (total_of [11; 11; 13; 13] = 44 \/ total_of [11; 11; 13; 13] = 48 \/
      total_of [11; 11; 13; 13] = 52)).
Proof.
  destruct (lepton_filter_keeps [[1; -1; 1; -1]; [1; 1; 1; -1]]
              [[11; 11; 13; 13]; [13; 13; 13; 13]] 0 [1; -1; 1; -1]
              [11; 11; 13; 13] eq_refl eq_refl)
    as [(keep & Hk & _ & Hexact) _].
  exists keep. split; [exact Hk|].
  apply Hexact; (split; [repeat constructor; lia|cbn; lia]).
Defined.

(** Sums that leave 64 bits wrap: an event whose types sum to 2^64 + 44 is
    kept. *)
Example lepton_filter_wraps :
  lepton_filter [[0]] [[2 ^ 63 - 1; 2 ^ 63 - 1; 46]] = [true] /\
  total_of [2 ^ 63 - 1; 2 ^ 63 - 1; 46] = 2 ^ 64 + 44.
Proof. split; reflexivity. Qed.

Example lepton_filter_sample :
  lepton_filter [[1; -1; 1; -1]; [1; 1; 1; -1]; [1; -1; 1; -1]; [1; -1]]
                [[11; 11; 13; 13]; [13; 13; 13; 13]; [11; 11; 11; 13]; [22; 22]]
  = [true; false; false; true].
Proof. reflexivity. Qed.

(** In [process] the mask is applied to the events it was computed from:
    the events kept are those that pass. *)
Lemma compress_lepton_filter `{Numeric} (evs : list Event) :
  compress evs
    (lepton_filter (map (map charge) (lep <$> evs))
                   (map (map typeid) (lep <$> evs)))
  = List.filter (fun e => passes (charge <$> lep e) (typeid <$> lep e)) evs.
Proof.
  induction evs as [|e evs IH]; [reflexivity|].
  rewrite fmap_cons. cbn [map]. rewrite lepton_filter_cons.
  cbn [compress List.filter].
  destruct (passes _ _); rewrite IH; reflexivity.
Qed.

Lemma getitem_mask_lepton_filter `{Numeric} (events : Events) :
  getitem_mask (rows events)
    (lepton_filter (map (map charge) (lep <$> rows events))
                   (map (map typeid) (lep <$> rows events)))
  = Ok (selected events).
Proof.
  unfold getitem_mask.
  rewrite lepton_filter_length, !length_map, ?length_fmap, Nat.max_id.
  rewrite Nat.eqb_refl, compress_lepton_filter. reflexivity.
Qed.

(** ** The invariant mass *)

Section Mass.
Context `{Numeric}.

Lemma broadcast2_ok {A B C} (f : A -> B -> C) (a : list A) (b : list B) :
  length a = length b -> broadcast2 f a b = Ok (zip_with f a b).
Proof.
  intros Hlen. unfold broadcast2. rewrite Hlen, Nat.eqb_refl. reflexivity.
Qed.

Lemma broadcast2_cons {A B C} (f : A -> B -> C) x y (a : list A) (b : list B) :
  broadcast2 f (x :: a) (y :: b) =
  let* r := broadcast2 f a b in Ok (f x y :: r).
Proof.
  unfold broadcast2. cbn [length Nat.eqb].
  destruct (Nat.eqb (length a) (length b)); reflexivity.
Qed.

Lemma getitem_col_spec {A} (a : list (list A)) (k : nat) :
  getitem_col a k =
  match mapM (fun l => l !! k) a with
  | Some xs => Ok xs
  | None => Raise (ValueError "index out of range")
  end.
Proof.
  induction a as [|l a IH]; [reflexivity|].
  cbn. destruct (l !! k); [|reflexivity].
  rewrite IH. cbn. destruct (mapM _ a); reflexivity.
Qed.

Lemma getitem_col_length {A} (a : list (list A)) (k : nat) xs :
  getitem_col a k = Ok xs -> length xs = length a.
Proof.
  rewrite getitem_col_spec.
  destruct (mapM _ a) as [ys|] eqn:E; [|discriminate].
  intros [= <-]. symmetry. by eapply length_mapM.
Qed.

Lemma getitem_col_raises {A} (a : list (list A)) (k : nat) e :
  getitem_col a k = Raise e -> e = ValueError "index out of range".
Proof.
  rewrite getitem_col_spec. destruct (mapM _ a); congruence.
Qed.

(** The mass of a batch is computed event by event; the only way to fail
    is an event with fewer than four leptons. *)
Lemma calc_mllll_cons (l : list Lepton) (ls : list (list Lepton)) :
  calc_mllll (l :: ls) =
  match four_vector_sum l with
  | None => Raise (ValueError "index out of range")
  | Some v =>
      let* ms := calc_mllll ls in Ok (div (mass v) (lit 1000) :: ms)
  end.
Proof.
  unfold calc_mllll. cbn [getitem_col].
  destruct l as [|a l]; [reflexivity|]; cbn [lookup list_lookup].
  destruct (getitem_col ls 0) as [l0|e0] eqn:E0; cbn [bind];
    [|apply getitem_col_raises in E0; subst e0;
     by destruct l as [|? [|? [|? ?]]]].
  pose proof (getitem_col_length _ _ _ E0) as L0.
  destruct l as [|b l]; [reflexivity|]; cbn [lookup list_lookup].
  destruct (getitem_col ls 1) as [l1|e1] eqn:E1; cbn [bind];
    [|apply getitem_col_raises in E1; subst e1; by destruct l as [|? [|? ?]]].
  pose proof (getitem_col_length _ _ _ E1) as L1.
  rewrite !fmap_cons, broadcast2_cons.
  rewrite (broadcast2_ok vadd (p4 <$> l0) (p4 <$> l1))
    by (rewrite !length_fmap; congruence).
  cbn [bind].
  destruct l as [|c l]; [reflexivity|]; cbn [lookup list_lookup].
  destruct (getitem_col ls 2) as [l2|e2] eqn:E2; cbn [bind];
    [|apply getitem_col_raises in E2; subst e2; by destruct l as [|? ?]].
  pose proof (getitem_col_length _ _ _ E2) as L2.
  rewrite !fmap_cons, broadcast2_cons.
  rewrite (broadcast2_ok vadd _ (p4 <$> l2))
    by (rewrite length_zip_with, !length_fmap; lia).
  cbn [bind].
  destruct l as [|d l]; [reflexivity|]; cbn [lookup list_lookup].
  destruct (getitem_col ls 3) as [l3|e3] eqn:E3; cbn [bind];
    [|apply getitem_col_raises in E3; subst e3; reflexivity].
  pose proof (getitem_col_length _ _ _ E3) as L3.
  rewrite !fmap_cons, broadcast2_cons.
  rewrite (broadcast2_ok vadd _ (p4 <$> l3))
    by (rewrite !length_zip_with, !length_fmap; lia).
  reflexivity.
Qed.

Lemma calc_mllll_spec (evs : list Event) :
  calc_mllll (lep <$> evs) =
  match mapM event_mllll evs with
  | Some ms => Ok ms
  | None => Raise (ValueError "index out of range")
  end.
Proof.
  induction evs as [|e evs IH]; [reflexivity|].
  rewrite fmap_cons, calc_mllll_cons, IH. cbn [mapM].
  destruct (event_mllll e) as [m|] eqn:Ee; unfold event_mllll in Ee;
    destruct (four_vector_sum (lep e)); try discriminate; cbn in Ee |- *;
    [|reflexivity].
  injection Ee as <-.
  destruct (mapM event_mllll evs); reflexivity.
Qed.

Lemma getitem_col_raises_calc (evs : list Event) (e : exn) :
  calc_mllll (lep <$> evs) = Raise e -> e = ValueError "index out of range".
Proof.
  rewrite calc_mllll_spec. destruct (mapM event_mllll evs); congruence.
Qed.

Lemma event_mllll_four (e : Event) :
  length (lep e) = 4%nat -> is_Some (event_mllll e).
Proof.
  unfold event_mllll. destruct (lep e) as [|a [|b [|c [|d [|? ?]]]]];
    try discriminate. intros _. cbn. eauto.
Qed.

Lemma Forall_kept {A} (P : A -> Prop) (p : A -> bool) (l : list A) :
  Forall P l -> Forall P (List.filter p l).
Proof.
  induction 1 as [|x l Hx Hl IH]; cbn; [constructor|].
  destruct (p x); [constructor|]; assumption.
Qed.

(** With four leptons in every event, the mass of every selected event is
    defined. *)
Lemma four_leptons_mllll (events : Events) :
  four_leptons events -> is_Some (mapM event_mllll (selected events)).
Proof.
  intros H4. apply mapM_is_Some. unfold selected.
  apply Forall_kept. eapply Forall_impl; [exact H4|].
  intros e He. by apply event_mllll_four.
Qed.
End Mass.

(** ** What process computes *)

Section ProcessFacts.
Context `{Numeric}.
Variable infos : gmap string Info.

Lemma fill_ok (h : Hist.t) (f : Hist.Fill) :
  Hist.fill_names f = Hist.axis_name <$> Hist.axes h ->
  (forall w, Hist.weight f = Some w -> length w = length (Hist.mllll f)) ->
  Hist.fill h f =
  Ok {| Hist.axes := Hist.axes h; Hist.fills := Hist.fills h ++ [f] |}.
Proof.
  intros Hnames Hw. unfold Hist.fill.
  rewrite bool_decide_eq_true_2 by exact Hnames.
  destruct (Hist.weight f) as [w|]; [|reflexivity].
  rewrite (Hw w eq_refl), Nat.eqb_refl. reflexivity.
Qed.

Lemma broadcast2_columns {A} (f g : A -> num) (l : list A) :
  broadcast2 mul (f <$> l) (g <$> l) = Ok ((fun x => mul (f x) (g x)) <$> l).
Proof.
  rewrite broadcast2_ok by (rewrite !length_fmap; reflexivity).
  f_equal. induction l as [|x l IH]; [reflexivity|].
  cbn. f_equal. exact IH.
Qed.

(** [process], with every check of the array and histogram libraries
    discharged: it fails on an event with fewer than four leptons, on a
    file name without a sample, and on a sample without a weight; and
    otherwise fills one histogram, chosen by the category. *)
Lemma process_eq (events : Events) :
  process infos events =
  match mapM event_mllll (selected events) with
  | None => Raise (ValueError "index out of range")
  | Some mllll =>
      let cat := dataset_category (metadata events) in
      if String.eqb cat "Data" then
        Ok {| data :=
                {| Hist.axes := data_axes;
                   Hist.fills :=
                     [ {| Hist.mllll := mllll; Hist.dataset := None;
                          Hist.variation := None; Hist.weight := None |} ] |};
              MC := Hist.new MC_axes |}
      else
        let* sample := findall_0 (filename (metadata events)) in
        let* w := get_xsec_weight infos sample in
        Ok {| data := Hist.new data_axes;
              MC := {| Hist.axes := MC_axes;
                       Hist.fills :=
                         MC_fills cat mllll (selected events) w |} |}
  end.
Proof.
  unfold process. rewrite getitem_mask_lepton_filter. cbn [bind rows metadata].
  rewrite calc_mllll_spec.
  destruct (mapM event_mllll (selected events)) as [mllll|] eqn:Em;
    [|reflexivity].
  apply length_mapM in Em. cbn [bind].
  destruct (String.eqb _ "Data"); [reflexivity|].
  destruct (findall_0 _) as [sample|e]; [|reflexivity]. cbn [bind].
  destruct (get_xsec_weight infos sample) as [w|e]; [|reflexivity].
  cbn [bind]. rewrite <- !list_fmap_compose.
  rewrite !broadcast2_columns. cbn [bind].
  repeat (rewrite fill_ok;
          [cbn [bind]
          |reflexivity
          |cbn; intros ? [= <-]; rewrite !length_fmap; congruence]).
  reflexivity.
Qed.
End ProcessFacts.

(** ** get_xsec_weight *)

(** C3. For a sample of the table, [get_xsec_weight] evaluates
    [(lumi * xsec) / (sumw * red_eff)] with [lumi = 10000] on the sample's
    entry: its outcome is the outcome of that division, and where the
    divisor is not zero it returns the quotient. *)
Theorem get_xsec_weight_formula `{Numeric} (infos : gmap string Info)
    (sample : string) (info : Info) :
  infos !! sample = Some info ->
  get_xsec_weight infos sample =
    truediv (mul (lit 10000) (xsec info)) (mul (sumw info) (red_eff info)) /\
  (is_zero (mul (sumw info) (red_eff info)) = false ->
   get_xsec_weight infos sample =
     Ok (div (mul (lit 10000) (xsec info)) (mul (sumw info) (red_eff info)))).
Proof.
  intros Hin. unfold get_xsec_weight, getitem. rewrite Hin. cbn [bind].
  split; [reflexivity|].
  intros Hnz. unfold truediv. rewrite Hnz. reflexivity.
Qed.

Lemma get_xsec_weight_formula_witness :
  get_xsec_weight Sample.infos "ggH125_ZZ4lep" =
  Ok (Sym.SDiv (Sym.SMul (Sym.SLit 10000) (Sym.SVar "xsec"))
               (Sym.SMul (Sym.SVar "sumw") (Sym.SVar "red_eff"))).
Proof.
  apply (get_xsec_weight_formula Sample.infos "ggH125_ZZ4lep" Sample.ggH);
    reflexivity.
Defined.

Lemma get_xsec_weight_known `{Numeric} (infos : gmap string Info)
    (events : Events) (sample : string) (info : Info) :
  sample_known infos events sample info ->
  get_xsec_weight infos sample = Ok (xsec_weight_of info).
Proof.
  intros (_ & Hin & Hnz).
  unfold get_xsec_weight, getitem, truediv, xsec_weight_of.
  rewrite Hin. cbn [bind]. rewrite Hnz. reflexivity.
Qed.

(** A sample that is not in the table is a [KeyError]; a zero divisor is a
    [ZeroDivisionError]. *)
Lemma get_xsec_weight_raises `{Numeric} (infos : gmap string Info)
    (sample : string) (e : exn) :
  get_xsec_weight infos sample = Raise e ->
  e = KeyError sample \/ e = ZeroDivisionError.
Proof.
  unfold get_xsec_weight, getitem, truediv.
  destruct (infos !! sample) as [info|]; cbn [bind].
  - destruct (is_zero _); [|discriminate]. intros [= <-]. by right.
  - intros [= <-]. by left.
Qed.

(** ** get_lepton_query *)

(** C4. The query keeps the events with [lep_n = 4], all of them and in
    their order, and no other; the row of a kept event carries its lepton
    columns and [mcWeight] unchanged, the product of the four scale factors,
    and that product times 1.1 and times 0.9. *)
Theorem get_lepton_query_selects `{Numeric} (source : list Tree.event) :
  exists kept : list Tree.event,
    kept = List.filter (fun e => Z.eqb (Tree.lep_n e) 4) source /\
    (forall e, e ∈ kept <-> e ∈ source /\ Tree.lep_n e = 4) /\
    Forall2
      (fun e r =>
         Column.lep_pt r = Tree.lep_pt e /\
         Column.lep_eta r = Tree.lep_eta e /\
         Column.lep_phi r = Tree.lep_phi e /\
         Column.lep_energy r = Tree.lep_E e /\
         Column.lep_charge r = Tree.lep_charge e /\
         Column.lep_typeid r = Tree.lep_type e /\
         Column.mcWeight r = Tree.mcWeight e /\
         Column.scaleFactor r =
           mul (mul (mul (Tree.scaleFactor_ELE e) (Tree.scaleFactor_MUON e))
                    (Tree.scaleFactor_LepTRIGGER e))
               (Tree.scaleFactor_PILEUP e) /\
         Column.scaleFactorUP r = mul (Column.scaleFactor r) (lit (11 # 10)) /\
         Column.scaleFactorDOWN r = mul (Column.scaleFactor r) (lit (9 # 10)))
      kept (get_lepton_query source).
Proof.
  eexists. split; [reflexivity|]. split.
  - intros e. rewrite !list_elem_of_In, filter_In, Z.eqb_eq. reflexivity.
  - unfold get_lepton_query, Select, Where.
    induction (List.filter _ source) as [|e l IH]; cbn [map]; constructor.
    + cbn. repeat split; reflexivity.
    + exact IH.
Qed.

Lemma get_lepton_query_selects_witness :
  exists kept : list Tree.event,
    kept = [ Sample.tree_event 4 [1; -1; 1; -1] [11; 11; 13; 13];
             Sample.tree_event 4 [1; 1; 1; -1] [13; 13; 13; 13] ] /\
    Forall2 (fun e r => Column.lep_typeid r = Tree.lep_type e)
            kept (get_lepton_query Sample.tree).
Proof.
  destruct (get_lepton_query_selects Sample.tree) as (kept & Hk & _ & Hrows).
  exists kept. split; [exact Hk|].
  eapply Forall2_impl; [exact Hrows|]. cbn beta. intros e r Hr. apply Hr.
Defined.

Example get_lepton_query_sample :
  length (get_lepton_query Sample.tree) = 2%nat /\
  Column.lep_typeid <$> get_lepton_query Sample.tree =
    [[11; 11; 13; 13]; [13; 13; 13; 13]] /\
  Column.scaleFactorUP <$> get_lepton_query Sample.tree =
    let sf := Sym.SMul (Sym.SMul (Sym.SMul (Sym.SVar "ele") (Sym.SVar "muon"))
                                 (Sym.SVar "trig"))
                       (Sym.SVar "pileup") in
    [Sym.SMul sf (Sym.SLit (11 # 10)); Sym.SMul sf (Sym.SLit (11 # 10))].
Proof. repeat split; reflexivity. Qed.

(** ** The simulated and the recorded branch of process *)

Section Branches.
Context `{Numeric}.
Variable infos : gmap string Info.

Lemma process_MC (events : Events) (sample : string) (info : Info) :
  dataset_category (metadata events) <> "Data" ->
  four_leptons events ->
  sample_known infos events sample info ->
  exists mllll,
    mapM event_mllll (selected events) = Some mllll /\
    process infos events =
    Ok {| data := Hist.new data_axes;
          MC := {| Hist.axes := MC_axes;
                   Hist.fills :=
                     MC_fills (dataset_category (metadata events)) mllll
                       (selected events) (xsec_weight_of info) |} |}.
Proof.
  intros Hcat H4 Hs.
  destruct (four_leptons_mllll events H4) as [mllll Hm].
  exists mllll. split; [exact Hm|].
  rewrite process_eq, Hm. cbn zeta.
  apply String.eqb_neq in Hcat. rewrite Hcat.
  pose proof (get_xsec_weight_known infos events sample info Hs) as Hw.
  destruct Hs as (Hf & _). rewrite Hf. cbn [bind]. rewrite Hw. reflexivity.
Qed.

Lemma process_Data (events : Events) :
  dataset_category (metadata events) = "Data" ->
  four_leptons events ->
  exists mllll,
    mapM event_mllll (selected events) = Some mllll /\
    process infos events =
    Ok {| data :=
            {| Hist.axes := data_axes;
               Hist.fills :=
                 [ {| Hist.mllll := mllll; Hist.dataset := None;
                      Hist.variation := None; Hist.weight := None |} ] |};
          MC := Hist.new MC_axes |}.
Proof.
  intros Hcat H4.
  destruct (four_leptons_mllll events H4) as [mllll Hm].
  exists mllll. split; [exact Hm|].
  rewrite process_eq, Hm. cbn zeta.
  apply String.eqb_eq in Hcat. rewrite Hcat. reflexivity.
Qed.
End Branches.



(** C8. For a batch that is not "Data", with [mllll] the masses of the
    selected events and [w] the sample weight: the nominal call fills
    [mllll] with the weights [(w * mcWeight) * scaleFactor]; the calls for
    scaleFactorUP and scaleFactorDOWN fill the same [mllll] and read the
    weight's last factor from the columns scaleFactorUP and scaleFactorDOWN;
    the calls for m4lUP and m4lDOWN fill [mllll * 1.01] and [mllll * 0.99]
    with the weights of the nominal call. *)
Theorem process_MC_variations `{Numeric} (infos : gmap string Info)
    (events : Events) (sample : string) (info : Info) :
  dataset_category (metadata events) <> "Data" ->
  four_leptons events ->
  sample_known infos events sample info ->
  exists (out : Output) (mllll : list num),
    process infos events = Ok out /\
    mapM event_mllll (selected events) = Some mllll /\
    let cat := dataset_category (metadata events) in
    let w := xsec_weight_of info in
    let nominal :=
      (fun e => mul (mul w (mcWeight e)) (scaleFactor e)) <$> selected events in
    Hist.fills (MC out) =
    [ {| Hist.mllll := mllll; Hist.dataset := Some cat;
         Hist.variation := Some "nominal"; Hist.weight := Some nominal |};
      {| Hist.mllll := mllll; Hist.dataset := Some cat;
         Hist.variation := Some "scaleFactorUP";
         Hist.weight :=
           Some ((fun e => mul (mul w (mcWeight e)) (scaleFactorUP e))
                   <$> selected events) |};
      {| Hist.mllll := mllll; Hist.dataset := Some cat;
         Hist.variation := Some "scaleFactorDOWN";
         Hist.weight :=
           Some ((fun e => mul (mul w (mcWeight e)) (scaleFactorDOWN e))
                   <$> selected events) |};
      {| Hist.mllll := (fun m => mul m (lit (101 # 100))) <$> mllll;
         Hist.dataset := Some cat;
         Hist.variation := Some "m4lUP"; Hist.weight := Some nominal |};
      {| Hist.mllll := (fun m => mul m (lit (99 # 100))) <$> mllll;
         Hist.dataset := Some cat;
         Hist.variation := Some "m4lDOWN"; Hist.weight := Some nominal |} ].
Proof.
  intros Hcat H4 Hs.
  destruct (process_MC infos events sample info Hcat H4 Hs) as (mllll & Hm & Hp).
  eexists; exists mllll. split; [exact Hp|]. split; [exact Hm|]. reflexivity.
Qed.

Lemma process_MC_variations_witness :
  exists out : Output,
    process Sample.infos (Sample.batch zzstar) = Ok out /\
    Hist.weight <$> Hist.fills (MC out) =
    let w := Sym.SMul (Sym.SDiv (Sym.SMul (Sym.SLit 10000) (Sym.SVar "xsec"))
                         (Sym.SMul (Sym.SVar "sumw") (Sym.SVar "red_eff")))
                      (Sym.SVar "w1") in
    [ Some [Sym.SMul w (Sym.SVar "sf1")]; Some [Sym.SMul w (Sym.SVar "up1")];
      Some [Sym.SMul w (Sym.SVar "down1")]; Some [Sym.SMul w (Sym.SVar "sf1")];
      Some [Sym.SMul w (Sym.SVar "sf1")] ].
Proof.
  destruct (process_MC_variations Sample.infos (Sample.batch zzstar)
              "ggH125_ZZ4lep" Sample.ggH) as (out & mllll & Hp & Hm & Hf).
  - discriminate.
  - repeat constructor.
  - repeat split; reflexivity.
  - exists out. split; [exact Hp|]. rewrite Hf. reflexivity.
Defined.



(** ** Branching and failures *)

(** The calls of [fill] behind an output of [process] are fixed by the side
    of the test on the category the batch is on. *)
Lemma process_trace `{Numeric} (infos : gmap string Info) (events : Events)
    (out : Output) :
  process infos events = Ok out ->
  fill_trace out =
  if String.eqb (dataset_category (metadata events)) "Data"
  then ([(None, false)], [])
  else ([], [ (Some "nominal", true); (Some "scaleFactorUP", true);
              (Some "scaleFactorDOWN", true); (Some "m4lUP", true);
              (Some "m4lDOWN", true) ]).
Proof.
  rewrite process_eq.
  destruct (mapM event_mllll (selected events)); [|discriminate]. cbn zeta.
  destruct (String.eqb _ "Data"); [by intros [= <-]|].
  destruct (findall_0 _); [|discriminate]. cbn [bind].
  destruct (get_xsec_weight _ _); [|discriminate]. cbn [bind].
  by intros [= <-].
Qed.

(** Every output of [process] has the axes it creates its histograms with. *)
Lemma process_output_axes `{Numeric} (infos : gmap string Info)
    (events : Events) (out : Output) :
  process infos events = Ok out -> process_axes out.
Proof.
  rewrite process_eq.
  destruct (mapM event_mllll (selected events)); [|discriminate]. cbn zeta.
  destruct (String.eqb _ "Data"); [by intros [= <-]|].
  destruct (findall_0 _); [|discriminate]. cbn [bind].
  destruct (get_xsec_weight _ _); [|discriminate]. cbn [bind].
  by intros [= <-].
Qed.

(** C5, as stated, fails: two batches with the same events and the same
    file name, one of category "Data" and one of a simulated category, go
    through different calls of [fill]. *)
Lemma process_branches_on_category :
  exists out1 out2 : Output,
    process Sample.infos (Sample.batch "Data") = Ok out1 /\
    process Sample.infos (Sample.batch signal) = Ok out2 /\
    fill_trace out1 = ([(None, false)], []) /\
    fill_trace out2 =
      ([], [ (Some "nominal", true); (Some "scaleFactorUP", true);
             (Some "scaleFactorDOWN", true); (Some "m4lUP", true);
             (Some "m4lDOWN", true) ]) /\
    fill_trace out1 <> fill_trace out2.
Proof.
  do 2 eexists. split; [reflexivity|]. split; [reflexivity|].
  split; [reflexivity|]. split; [reflexivity|]. discriminate.
Qed.

(** C5, amended. [process] branches on its input once, on whether the
    category is "Data"; every other way it can go is the failure of a
    library call, which it raises.  On each side of the test its output is
    one fixed arithmetic expression of the batch: with [mllll] the masses of
    the events that pass the selection, each the mass of the sum of the
    event's first four leptons divided by 1000, a "Data" batch gives the one
    unweighted fill of the data histogram; any other batch gives, for the
    weight [w] of its sample, the five fills of the MC histogram, with the
    weights [(w * mcWeight) * scaleFactor] (or the UP or DOWN column in the
    place of [scaleFactor]) and the masses [mllll], [mllll * 1.01] and
    [mllll * 0.99].  So two batches on the same side of the test go through
    the same calls of [fill]. *)
Theorem process_one_branch `{Numeric} (infos : gmap string Info)
    (events : Events) :
  match mapM event_mllll (selected events) with
  | None => process infos events = Raise (ValueError "index out of range")
  | Some mllll =>
      let cat := dataset_category (metadata events) in
      if String.eqb cat "Data" then
        process infos events =
        Ok {| data :=
                {| Hist.axes := data_axes;
                   Hist.fills :=
                     [ {| Hist.mllll := mllll; Hist.dataset := None;
                          Hist.variation := None; Hist.weight := None |} ] |};
              MC := Hist.new MC_axes |}
      else
        match findall_0 (filename (metadata events)) with
        | Raise e => process infos events = Raise e
        | Ok sample =>
            match get_xsec_weight infos sample with
            | Raise e => process infos events = Raise e
            | Ok w =>
                let weights (sf : Event -> num) :=
                  (fun e => mul (mul w (mcWeight e)) (sf e))
                    <$> selected events in
                process infos events =
                Ok {| data := Hist.new data_axes;
                      MC :=
                        {| Hist.axes := MC_axes;
                           Hist.fills :=
                             [ {| Hist.mllll := mllll;
                                  Hist.dataset := Some cat;
                                  Hist.variation := Some "nominal";
                                  Hist.weight := Some (weights scaleFactor) |};
                               {| Hist.mllll := mllll;
                                  Hist.dataset := Some cat;
                                  Hist.variation := Some "scaleFactorUP";
                                  Hist.weight :=
                                    Some (weights scaleFactorUP) |};
                               {| Hist.mllll := mllll;
                                  Hist.dataset := Some cat;
                                  Hist.variation := Some "scaleFactorDOWN";
                                  Hist.weight :=
                                    Some (weights scaleFactorDOWN) |};
                               {| Hist.mllll :=
                                    (fun m => mul m (lit (101 # 100)))
                                      <$> mllll;
                                  Hist.dataset := Some cat;
                                  Hist.variation := Some "m4lUP";
                                  Hist.weight := Some (weights scaleFactor) |};
                               {| Hist.mllll :=
                                    (fun m => mul m (lit (99 # 100)))
                                      <$> mllll;
                                  Hist.dataset := Some cat;
                                  Hist.variation := Some "m4lDOWN";
                                  Hist.weight :=
                                    Some (weights scaleFactor) |} ] |} |}
            end
        end
  end /\
  (forall (events' : Events) (out out' : Output),
      String.eqb (dataset_category (metadata events)) "Data" =
      String.eqb (dataset_category (metadata events')) "Data" ->
      process infos events = Ok out ->
      process infos events' = Ok out' ->
      fill_trace out = fill_trace out').
Proof.
  split.
  - rewrite process_eq.
    destruct (mapM event_mllll (selected events)) as [mllll|]; [|reflexivity].
    cbn zeta. destruct (String.eqb _ "Data"); [reflexivity|].
    destruct (findall_0 _) as [sample|e]; [|reflexivity]. cbn [bind].
    destruct (get_xsec_weight infos sample) as [w|e]; reflexivity.
  - intros events' out out' Hside H1 H2.
    apply process_trace in H1. apply process_trace in H2.
    rewrite H1, H2, Hside. reflexivity.
Qed.

Lemma process_one_branch_witness :
  exists out : Output,
    process Sample.infos (Sample.batch zzstar) = Ok out /\
    Hist.weight <$> Hist.fills (MC out) !! 1%nat =
      Some (Some ((fun e =>
                     mul (mul (xsec_weight_of Sample.ggH) (mcWeight e))
                         (scaleFactorUP e))
                    <$> selected (Sample.batch zzstar))).
Proof.
  eexists. split.
  - exact (proj1 (process_one_branch Sample.infos (Sample.batch zzstar))).
  - reflexivity.
Defined.

(** The exceptions [process] raises are those of the library calls it
    makes, as they were raised. *)
Lemma process_raises `{Numeric} (infos : gmap string Info) (events : Events)
    (e : exn) :
  process infos events = Raise e ->
  calc_mllll (lep <$> selected events) = Raise e \/
  findall_0 (filename (metadata events)) = Raise e \/
  exists sample,
    findall_0 (filename (metadata events)) = Ok sample /\
    get_xsec_weight infos sample = Raise e.
Proof.
  rewrite process_eq, calc_mllll_spec.
  destruct (mapM event_mllll (selected events)); [|intros [= <-]; by left].
  cbn zeta. destruct (String.eqb _ "Data"); [discriminate|].
  destruct (findall_0 _) as [sample|e']; cbn [bind]; [|intros [= <-]; auto].
  destruct (get_xsec_weight infos sample) as [w|e'] eqn:Ew; cbn [bind];
    [discriminate|].
  intros [= <-]. right; right. exists sample. auto.
Qed.

(** C6, as stated, fails: [run_updates_stream] catches the exception its
    stream raises and raises one of its own in its place. *)
Lemma run_updates_stream_replaces_exception :
  run_updates_stream (H := sym_numeric)
    {| yielded := []; raised := Some (KeyError "lep_pt") |} "Data"
  = Raise (Failure "Failure while processing Data" (KeyError "lep_pt")) /\
  run_updates_stream (H := sym_numeric)
    {| yielded := []; raised := Some (KeyError "lep_pt") |} "Data"
  <> Raise (KeyError "lep_pt").
Proof. split; [reflexivity|discriminate]. Qed.

(** ** Four leptons *)

Section FourLeptons.
Context `{Numeric}.

Lemma zip_leptons_ok (r : Column.row) (n : nat) :
  length (Column.lep_pt r) = n -> length (Column.lep_eta r) = n ->
  length (Column.lep_phi r) = n -> length (Column.lep_energy r) = n ->
  length (Column.lep_charge r) = n -> length (Column.lep_typeid r) = n ->
  exists leptons, zip_leptons r = Ok leptons /\ length leptons = n.
Proof.
  intros Hpt Heta Hphi HE Hq Ht. unfold zip_leptons.
  rewrite Hpt, Heta, Hphi, HE, Hq, Ht, Nat.eqb_refl. cbn [andb].
  eexists. split; [reflexivity|].
  rewrite !length_zip_with, length_map. lia.
Qed.

(** The events the query delivers from a well-formed tree can be read,
    and each has four leptons. *)
Lemma query_four_leptons (md : Metadata) (source : list Tree.event) :
  Forall Tree.well_formed source ->
  exists events,
    events_of_rows md (get_lepton_query source) = Ok events /\
    metadata events = md /\
    four_leptons events.
Proof.
  intros Hwf. unfold events_of_rows, four_leptons.
  enough (exists evs,
             sequence (map event_of_row (get_lepton_query source)) = Ok evs /\
             Forall (fun e => length (lep e) = 4%nat) evs) as (evs & -> & H4).
  { eexists. split; [reflexivity|]. split; [reflexivity|exact H4]. }
  unfold get_lepton_query, Select, Where.
  induction Hwf as [|e source He _ (evs & IH & H4)];
    [exists []; split; [reflexivity|constructor]|].
  cbn [List.filter]. destruct (Z.eqb (Tree.lep_n e) 4) eqn:En;
    [|exists evs; auto].
  apply Z.eqb_eq in En. destruct He as (Hpt & Heta & Hphi & HE & Hq & Ht).
  rewrite En in *. cbn [map sequence]. unfold event_of_row at 1.
  match goal with
  | |- context [zip_leptons ?r] =>
      destruct (zip_leptons_ok r 4) as (leptons & -> & Hlen); [cbn; lia..|]
  end.
  cbn [bind]. rewrite IH. cbn [bind].
  eexists. split; [reflexivity|]. constructor; [exact Hlen|exact H4].
Qed.

Lemma four_leptons_columns (events : Events) (k : nat) :
  four_leptons events -> (k < 4)%nat ->
  exists col, getitem_col (lep <$> selected events) k = Ok col.
Proof.
  intros H4 Hk. rewrite getitem_col_spec.
  destruct (mapM _ _) as [col|] eqn:E; [eauto|].
  apply mapM_None_1, Exists_exists in E. destruct E as (l & Hl & Hnone).
  apply list_elem_of_fmap in Hl. destruct Hl as (e & -> & He).
  unfold selected in He. apply list_elem_of_In, filter_In in He.
  destruct He as [He _].
  unfold four_leptons in H4. rewrite Forall_forall in H4.
  apply list_elem_of_In, H4 in He.
  apply lookup_ge_None in Hnone. lia.
Qed.
End FourLeptons.

(** C9. The events the query delivers from a well-formed tree, where every
    per-lepton branch has [lep_n] entries, all have four leptons; on such a
    batch each of [leptons[:, 0]] to [leptons[:, 3]] is in range, the mass
    is computed, and [process] does not raise the indexing's [ValueError]. *)
Theorem process_index_in_range `{Numeric} (md : Metadata)
    (source : list Tree.event) :
  Forall Tree.well_formed source ->
  exists events : Events,
    events_of_rows md (get_lepton_query source) = Ok events /\
    four_leptons events /\
    (forall k, (k < 4)%nat ->
       exists col, getitem_col (lep <$> selected events) k = Ok col) /\
    (exists mllll, calc_mllll (lep <$> selected events) = Ok mllll) /\
    (forall infos,
       process infos events <> Raise (ValueError "index out of range")).
Proof.
  intros Hwf.
  destruct (query_four_leptons md source Hwf) as (events & Hev & _ & H4).
  exists events. split; [exact Hev|]. split; [exact H4|].
  destruct (four_leptons_mllll events H4) as [mllll Hm].
  split; [|split].
  - intros k Hk. by apply four_leptons_columns.
  - exists mllll. rewrite calc_mllll_spec, Hm. reflexivity.
  - intros infos Hp. rewrite process_eq, Hm in Hp. cbn zeta in Hp.
    destruct (String.eqb _ "Data"); [discriminate|].
    unfold findall_0 in Hp.
    destruct (re_search _) as [sample|]; cbn [bind] in Hp; [|discriminate].
    destruct (get_xsec_weight infos sample) eqn:Ew; cbn [bind] in Hp;
      [discriminate|].
    injection Hp as ->. apply get_xsec_weight_raises in Ew.
    destruct Ew; discriminate.
Qed.

Lemma process_index_in_range_witness :
  exists events : Events,
    events_of_rows (metadata (Sample.batch "Data"))
      (get_lepton_query Sample.tree) = Ok events /\
    length (rows events) = 2%nat /\
    four_leptons events.
Proof.
  destruct (process_index_in_range (metadata (Sample.batch "Data")) Sample.tree)
    as (events & Hev & H4 & _).
  - repeat constructor.
  - exists events. split; [exact Hev|]. split; [|exact H4].
    vm_compute in Hev. injection Hev as <-. reflexivity.
Defined.

(** ** Gathering and summing *)

Section ProduceFacts.
Context `{Numeric}.

Lemma sum_from_axes (axs : list Hist.Axis) (hs : list Hist.t) (g : Hist.t) :
  Hist.axes g = axs -> Forall (fun h => Hist.axes h = axs) hs ->
  sum_from (Histogram g) hs =
  Ok (Histogram {| Hist.axes := axs;
                   Hist.fills := Hist.fills g ++ (hs ≫= Hist.fills) |}).
Proof.
  intros Hg Hhs. revert g Hg.
  induction Hhs as [|h hs Hh _ IH]; intros g Hg.
  - cbn. rewrite app_nil_r. destruct g; cbn in *; by subst.
  - cbn [sum_from radd]. unfold Hist.add.
    rewrite bool_decide_eq_true_2 by congruence. cbn [bind].
    rewrite IH by exact Hg. cbn. by rewrite app_assoc.
Qed.

Lemma sum_merged (axs : list Hist.Axis) (hs : list Hist.t) :
  Forall (fun h => Hist.axes h = axs) hs -> sum hs = Ok (merged axs hs).
Proof.
  intros Hhs. destruct Hhs as [|h hs Hh Hhs]; [reflexivity|].
  unfold sum. cbn [sum_from radd bind].
  rewrite (sum_from_axes axs) by assumption. reflexivity.
Qed.

Lemma sequence_Ok {A} (l : list A) : sequence (Ok <$> l) = Ok l.
Proof.
  induction l as [|x l IH]; [reflexivity|].
  cbn. rewrite IH. reflexivity.
Qed.

Lemma first_raised_Ok {A} (order : list nat) (l : list A) :
  first_raised order (Ok <$> l) = None.
Proof.
  induction order as [|i order IH]; [reflexivity|].
  cbn. rewrite list_lookup_fmap. destruct (l !! i); exact IH.
Qed.

(** When no awaitable raises, [gather] gives their results in their
    order, whatever the order they complete in. *)
Lemma gather_Ok {A} (order : list nat) (l : list A) :
  gather order (Ok <$> l) = Ok l.
Proof. unfold gather. rewrite first_raised_Ok. apply sequence_Ok. Qed.

Example gather_first_to_fail :
  gather [1; 0]%nat [Raise (KeyError "a"); Raise ZeroDivisionError; Ok 3]
  = Raise ZeroDivisionError /\
  gather [0; 1]%nat [Raise (KeyError "a"); Raise ZeroDivisionError; Ok 3]
  = Raise (KeyError "a").
Proof. split; reflexivity. Qed.

Variable DataSource : Type.
Variable make_datasource :
  list (string * list string) -> string ->
  (list Tree.event -> list Column.row) -> DataSource.
Variable source_category : DataSource -> string.
Variable execute : (Events -> result Output) -> DataSource -> stream Output.
Variable order : list nat.
Variable infos : gmap string Info.

Lemma jobs_Ok (fs : list (string * list string)) (hs : list Output) :
  Forall2 (ends_with DataSource make_datasource execute infos fs)
          (keys fs) hs ->
  jobs DataSource make_datasource source_category execute infos fs =
  Ok <$> (Some <$> hs).
Proof.
  unfold jobs, datasources. rewrite <- list_fmap_compose.
  induction 1 as [|k h ks hs [Hr Hl] _ IH]; [reflexivity|].
  rewrite !fmap_cons. f_equal; [|exact IH].
  cbn. unfold run_updates_stream. rewrite Hr, Hl. reflexivity.
Qed.

Lemma produce_for_spec (fs : list (string * list string)) (hs : list Output) :
  Forall2 (ends_with DataSource make_datasource execute infos fs)
          (keys fs) hs ->
  Forall process_axes hs ->
  produce_all_histograms_for DataSource make_datasource source_category
    execute order infos fs =
  Ok {| full_data_histogram := merged data_axes (data <$> hs);
        full_mc_histogram := merged MC_axes (MC <$> hs) |}.
Proof.
  intros Hends Haxes. unfold produce_all_histograms_for.
  rewrite (jobs_Ok fs hs Hends), gather_Ok. cbn [bind].
  rewrite <- !list_fmap_compose.
  change (subscript data ∘ Some) with (Ok ∘ data).
  change (subscript MC ∘ Some) with (Ok ∘ MC).
  rewrite !list_fmap_compose, !sequence_Ok. cbn [bind].
  rewrite (sum_merged data_axes), (sum_merged MC_axes);
    [reflexivity|apply Forall_fmap..];
    (eapply Forall_impl; [exact Haxes|]); by intros h [? ?].
Qed.
End ProduceFacts.

(** C7. [produce_all_histograms] starts one job for each category of the
    file set, in the order of the categories, and gathers them in one call;
    when every job's stream ends with an output of the processor, the
    function returns, whatever the order in which the jobs complete, the
    dictionary whose data entry is the sum of the outputs' data histograms
    and whose MC entry is the sum of their MC histograms, each sum holding
    the fills of all the jobs. *)
Theorem produce_all_histograms_sums `{Numeric} (DataSource : Type)
    (make_datasource :
       list (string * list string) -> string ->
       (list Tree.event -> list Column.row) -> DataSource)
    (source_category : DataSource -> string)
    (execute : (Events -> result Output) -> DataSource -> stream Output)
    (order : list nat) (infos : gmap string Info) (hs : list Output) :
  Forall2 (ends_with DataSource make_datasource execute infos fileset)
          (keys fileset) hs ->
  Forall process_axes hs ->
  jobs DataSource make_datasource source_category execute infos fileset =
    (fun ds_name =>
       let source := make_datasource fileset ds_name get_lepton_query in
       run_updates_stream (execute (process infos) source)
                          (source_category source)) <$> keys fileset /\
  length (jobs DataSource make_datasource source_category execute infos
            fileset) = 4%nat /\
  exists d m : total,
    sum (data <$> hs) = Ok d /\
    sum (MC <$> hs) = Ok m /\
    d = Histogram {| Hist.axes := data_axes;
                     Hist.fills := hs ≫= (fun h => Hist.fills (data h)) |} /\
    m = Histogram {| Hist.axes := MC_axes;
                     Hist.fills := hs ≫= (fun h => Hist.fills (MC h)) |} /\
    produce_all_histograms DataSource make_datasource source_category execute
      order infos =
    Ok {| full_data_histogram := d; full_mc_histogram := m |}.
Proof.
  intros Hends Haxes. split; [|split].
  - unfold jobs, datasources. rewrite <- list_fmap_compose. reflexivity.
  - unfold jobs, datasources. rewrite !length_fmap. reflexivity.
  - assert (Forall (fun h => Hist.axes h = data_axes) (data <$> hs)) as Hd.
    { apply Forall_fmap. eapply Forall_impl; [exact Haxes|]. by intros h [? ?]. }
    assert (Forall (fun h => Hist.axes h = MC_axes) (MC <$> hs)) as Hm.
    { apply Forall_fmap. eapply Forall_impl; [exact Haxes|]. by intros h [? ?]. }
    exists (merged data_axes (data <$> hs)), (merged MC_axes (MC <$> hs)).
    split; [by apply sum_merged|]. split; [by apply sum_merged|].
    pose proof (Forall2_length _ _ _ Hends) as Hlen.
    destruct hs as [|h hs']; [discriminate|].
    split; [|split].
    + unfold merged. rewrite fmap_cons. f_equal. f_equal.
      rewrite <- fmap_cons. generalize (h :: hs'). clear.
      induction l as [|x l IH]; [reflexivity|]. cbn. by rewrite <- IH.
    + unfold merged. rewrite fmap_cons. f_equal. f_equal.
      rewrite <- fmap_cons. generalize (h :: hs'). clear.
      induction l as [|x l IH]; [reflexivity|]. cbn. by rewrite <- IH.
    + unfold produce_all_histograms. by apply produce_for_spec.
Qed.

Lemma produce_all_histograms_sums_witness :
  exists d m : total,
    produce_all_histograms string (fun _ ds_name _ => ds_name) id
      Sample.execute [2; 0; 3; 1]%nat Sample.infos =
    Ok {| full_data_histogram := d; full_mc_histogram := m |} /\
    d = Histogram {| Hist.axes := data_axes;
                     Hist.fills := Hist.fills (data (Sample.output_of "Data")) |}.
Proof.
  destruct (produce_all_histograms_sums string (fun _ ds_name _ => ds_name) id
              Sample.execute [2; 0; 3; 1]%nat Sample.infos
              (Sample.output_of <$> keys fileset))
    as (_ & _ & d & m & _ & _ & Hd & _ & Hp).
  - repeat constructor.
  - repeat constructor.
  - exists d, m. split; [exact Hp|]. rewrite Hd. reflexivity.
Defined.

(** ** The model on the notebook's own data *)

Example findall_0_fileset :
  map (fun d => map findall_0 (snd d)) fileset =
  [ [ Raise (IndexError "list index out of range");
      Raise (IndexError "list index out of range");
      Raise (IndexError "list index out of range");
      Raise (IndexError "list index out of range") ];
    [ Ok "Zee"; Ok "Zmumu"; Ok "ttbar_lep" ];
    [ Ok "llll" ];
    [ Ok "ggH125_ZZ4lep"; Ok "VBFH125_ZZ4lep"; Ok "WH125_ZZ4lep";
      Ok "ZH125_ZZ4lep" ] ].
Proof. vm_compute. reflexivity. Qed.

Example findall_0_greedy :
  findall_0 "mc_12.a.4lep.b.4lep.root" = Ok "a.4lep.b" /\
  findall_0 "mc_.a.4lep" = Raise (IndexError "list index out of range") /\
  findall_0 "mc_1..4lep" = Raise (IndexError "list index out of range").
Proof. repeat split; reflexivity. Qed.

(** Without the query's cut an event with three leptons that passes the
    selection makes the indexing fail. *)
Example process_three_leptons :
  process Sample.infos
    {| metadata := metadata (Sample.batch "Data");
       rows := [ {| lep := [ Sample.lepton "a" 1 11; Sample.lepton "b" (-1) 11;
                             Sample.lepton "c" 0 22 ];
                    mcWeight := Sym.SVar "w"; scaleFactor := Sym.SVar "sf";
                    scaleFactorUP := Sym.SVar "up";
                    scaleFactorDOWN := Sym.SVar "down" |} ] |}
  = Raise (ValueError "index out of range").
Proof. reflexivity. Qed.

Example process_unknown_sample :
  process (∅ : gmap string Info) (Sample.batch signal)
  = Raise (KeyError "ggH125_ZZ4lep").
Proof. reflexivity. Qed.

(** * Further properties *)

(** ** The selection and the weight *)

(** X1. The selection acts event by event: the mask of two batches put
    together is the mask of the first followed by the mask of the second. *)
Theorem lepton_filter_app (c1 c2 t1 t2 : list (list Z)) :
  length c1 = length t1 ->
  lepton_filter (c1 ++ c2) (t1 ++ t2) =
  (lepton_filter c1 t1 ++ lepton_filter c2 t2)%list.
Proof.
  revert t1. induction c1 as [|c c1 IH]; intros [|t t1] Hlen;
    try discriminate; [reflexivity|].
  cbn [app]. rewrite !lepton_filter_cons, IH by (by injection Hlen).
  reflexivity.
Qed.

Lemma lepton_filter_app_witness :
  lepton_filter ([[1; -1; 1; -1]] ++ [[1; 1; 1; -1]; [1; -1]])
                ([[11; 11; 13; 13]] ++ [[13; 13; 13; 13]; [22; 22]])
  = (lepton_filter [[1; -1; 1; -1]] [[11; 11; 13; 13]]
     ++ lepton_filter [[1; 1; 1; -1]; [1; -1]]
          [[13; 13; 13; 13]; [22; 22]])%list.
Proof. apply lepton_filter_app. reflexivity. Defined.

(** X2. The outcomes of [get_xsec_weight]: it returns exactly for a sample
    of the table whose divisor [sumw * red_eff] is not zero, and then the
    quotient; it raises [KeyError] with the sample's name exactly for a
    sample that is not in the table, and [ZeroDivisionError] exactly for a
    sample of the table whose divisor is zero. *)
Theorem get_xsec_weight_outcomes `{Numeric} (infos : gmap string Info)
    (sample : string) :
  (forall w,
      get_xsec_weight infos sample = Ok w <->
      exists info,
        infos !! sample = Some info /\
        is_zero (mul (sumw info) (red_eff info)) = false /\
        w = div (mul (lit 10000) (xsec info))
                (mul (sumw info) (red_eff info))) /\
  (get_xsec_weight infos sample = Raise (KeyError sample) <->
   infos !! sample = None) /\
  (get_xsec_weight infos sample = Raise ZeroDivisionError <->
   exists info,
     infos !! sample = Some info /\
     is_zero (mul (sumw info) (red_eff info)) = true).
Proof.
  unfold get_xsec_weight, getitem, truediv.
  destruct (infos !! sample) as [info|]; cbn [bind].
  - destruct (is_zero _) eqn:Ez; (split; [|split]).
    + intros w. split; [discriminate|].
      intros (info' & [= <-] & Hz & _). congruence.
    + split; discriminate.
    + split; [eauto|reflexivity].
    + intros w. split.
      * intros [= <-]. eauto.
      * intros (info' & [= <-] & _ & ->). reflexivity.
    + split; discriminate.
    + split; [discriminate|]. intros (info' & [= <-] & Hz). congruence.
  - split; [|split].
    + intros w. split; [discriminate|]. intros (info & Hin & _). discriminate.
    + split; reflexivity.
    + split; [discriminate|]. intros (info & Hin & _). discriminate.
Qed.

(** ** The sample name in a file name *)

#[local] Arguments String.append !s1 s2 : simpl nomatch.

Lemma strip_prefix_Some (p s r : string) :
  strip_prefix p s = Some r <-> s = p ++ r.
Proof.
  revert s. induction p as [|a p IH]; intros s; cbn.
  - split; congruence.
  - destruct s as [|b s]; [split; discriminate|].
    destruct (Ascii.eqb a b) eqn:E.
    + apply Ascii.eqb_eq in E as ->. rewrite IH. split; congruence.
    + apply Ascii.eqb_neq in E. split; [discriminate|]. congruence.
Qed.

Lemma skip_digits_spec (s : string) :
  exists ds, s = ds ++ skip_digits s /\ string_forallb is_digit ds = true.
Proof.
  induction s as [|c s (ds & Hs & Hds)]; [by exists ""|].
  cbn. destruct (is_digit c) eqn:Ec; [|by exists ""].
  exists (String c ds). cbn. rewrite Ec, Hds, <- Hs. done.
Qed.

Lemma skip_digits_app (ds r : string) :
  string_forallb is_digit ds = true ->
  skip_digits (ds ++ "." ++ r) = "." ++ r.
Proof.
  induction ds as [|c ds IH]; [reflexivity|].
  cbn [string_forallb]. intros [Hc Hds]%andb_true_iff.
  cbn [append skip_digits]. rewrite Hc. by apply IH.
Qed.

Lemma greedy_group_sound (s g : string) :
  greedy_group s = Some g ->
  g <> "" /\
  string_forallb (fun c => negb (is_newline c)) g = true /\
  exists post, s = g ++ ".4lep" ++ post.
Proof.
  revert g. induction s as [|c s IH]; intros g; [discriminate|].
  cbn [greedy_group]. destruct (is_newline c) eqn:Ec; [discriminate|].
  destruct (greedy_group s) as [g'|].
  - intros [= <-]. destruct (IH g' eq_refl) as (_ & Hnl & post & ->).
    split; [discriminate|]. split; [cbn; by rewrite Ec|]. by exists post.
  - destruct (strip_prefix ".4lep" s) as [post|] eqn:Ep; [|discriminate].
    intros [= <-]. apply strip_prefix_Some in Ep as ->.
    split; [discriminate|]. split; [cbn; by rewrite Ec|]. by exists post.
Qed.

Lemma match_here_sound (s g : string) :
  match_here s = Some g ->
  exists ds post,
    s = "mc_" ++ ds ++ "." ++ g ++ ".4lep" ++ post /\
    ds <> "" /\ string_forallb is_digit ds = true /\
    g <> "" /\ string_forallb (fun c => negb (is_newline c)) g = true.
Proof.
  unfold match_here.
  destruct (strip_prefix "mc_" s) as [[|d s1]|] eqn:E1; try discriminate.
  apply strip_prefix_Some in E1 as ->.
  destruct (is_digit d) eqn:Ed; [|discriminate].
  destruct (strip_prefix "." (skip_digits s1)) as [s2|] eqn:E2; [|discriminate].
  apply strip_prefix_Some in E2.
  destruct (skip_digits_spec s1) as (ds & Hs1 & Hds). rewrite E2 in Hs1.
  intros (Hne & Hnl & post & ->)%greedy_group_sound.
  exists (String d ds), post. rewrite Hs1. cbn. rewrite Ed, Hds. done.
Qed.

Lemma re_search_sound (s g : string) :
  re_search s = Some g ->
  exists pre rest, s = pre ++ rest /\ match_here rest = Some g.
Proof.
  induction s as [|c s IH]; cbn [re_search].
  - destruct (match_here "") eqn:E; [|discriminate].
    intros [= <-]. by exists "", "".
  - destruct (match_here (String c s)) as [g'|] eqn:E.
    + intros [= <-]. by exists "", (String c s).
    + intros (pre & rest & -> & Hm)%IH. by exists (String c pre), rest.
Qed.

(** X3. A sample name [process] extracts from a file name comes from an
    occurrence of the pattern: the file name contains [mc_], one or more
    digits, a dot, the sample name and [.4lep], and the sample name is not
    empty and has no newline. *)
Theorem findall_0_sound (filename sample : string) :
  findall_0 filename = Ok sample ->
  exists pre ds post,
    filename = pre ++ "mc_" ++ ds ++ "." ++ sample ++ ".4lep" ++ post /\
    ds <> "" /\ string_forallb is_digit ds = true /\
    sample <> "" /\
    string_forallb (fun c => negb (is_newline c)) sample = true.
Proof.
  unfold findall_0. destruct (re_search filename) as [g|] eqn:E; [|discriminate].
  intros [= <-]. apply re_search_sound in E as (pre & rest & -> & Hm).
  apply match_here_sound in Hm as (ds & post & -> & H).
  by exists pre, ds, post.
Qed.

Lemma findall_0_sound_witness :
  exists pre ds post,
    prefix ++ "MC/mc_361106.Zee.4lep.root" =
      pre ++ "mc_" ++ ds ++ "." ++ "Zee" ++ ".4lep" ++ post /\
    ds <> "".
Proof.
  destruct (findall_0_sound (prefix ++ "MC/mc_361106.Zee.4lep.root") "Zee")
    as (pre & ds & post & Heq & Hds & _); [reflexivity|].
  by exists pre, ds, post.
Defined.

Lemma greedy_group_no_later (post : string) :
  (forall a b, post <> a ++ ".4lep" ++ b) ->
  greedy_group (".4lep" ++ post) = None.
Proof.
  intros Hpost. destruct (greedy_group _) as [g|] eqn:E; [exfalso|reflexivity].
  apply greedy_group_sound in E as (Hne & _ & post' & Heq).
  destruct g as [|c1 [|c2 [|c3 [|c4 [|c5 g]]]]]; cbn in Heq; try congruence.
  injection Heq as _ _ _ _ _ Heq. by apply (Hpost g post').
Qed.

Lemma greedy_group_exact (g post : string) :
  g <> "" ->
  string_forallb (fun c => negb (is_newline c)) g = true ->
  (forall a b, post <> a ++ ".4lep" ++ b) ->
  greedy_group (g ++ ".4lep" ++ post) = Some g.
Proof.
  intros Hne Hnl Hpost. induction g as [|c g IH]; [done|].
  cbn [string_forallb] in Hnl. apply andb_true_iff in Hnl as [Hc Hnl].
  apply negb_true_iff in Hc. cbn [append greedy_group]. rewrite Hc.
  destruct g as [|c' g].
  - pose proof (greedy_group_no_later post Hpost) as Hn.
    cbn [append] in Hn |- *. rewrite Hn.
    by rewrite (proj2 (strip_prefix_Some ".4lep" _ post)).
  - specialize (IH ltac:(discriminate) Hnl).
    cbn [append] in IH |- *. by rewrite IH.
Qed.

Lemma match_here_exact (ds g post : string) :
  ds <> "" -> string_forallb is_digit ds = true ->
  g <> "" -> string_forallb (fun c => negb (is_newline c)) g = true ->
  (forall a b, post <> a ++ ".4lep" ++ b) ->
  match_here ("mc_" ++ ds ++ "." ++ g ++ ".4lep" ++ post) = Some g.
Proof.
  intros Hds Hdig Hg Hnl Hpost. destruct ds as [|d ds]; [done|].
  cbn [string_forallb] in Hdig. apply andb_true_iff in Hdig as [Hd Hdig].
  pose proof (skip_digits_app ds (g ++ ".4lep" ++ post) Hdig) as Hs.
  pose proof (greedy_group_exact g post Hg Hnl Hpost) as Hgr.
  unfold match_here. cbn -[is_digit is_newline skip_digits greedy_group] in *.
  by rewrite Hd, Hs.
Qed.

Lemma re_search_skip (pre rest : string) :
  string_forallb (fun c => negb (Ascii.eqb "_" c)) pre = true ->
  re_search (pre ++ "mc_" ++ rest) = re_search ("mc_" ++ rest).
Proof.
  induction pre as [|c pre IH]; [reflexivity|].
  cbn [string_forallb]. intros [_ Hpre]%andb_true_iff.
  rewrite <- IH by exact Hpre.
  change (String c pre ++ "mc_" ++ rest) with (String c (pre ++ "mc_" ++ rest)).
  cbn [re_search].
  replace (match_here (String c (pre ++ "mc_" ++ rest))) with (@None string);
    [reflexivity|].
  unfold match_here.
  destruct pre as [|c1 [|c2 pre]]; cbn -[Ascii.eqb].
  - by destruct (Ascii.eqb "m" c).
  - destruct (Ascii.eqb "m" c); [|done]. by destruct (Ascii.eqb "c" c1).
  - cbn -[Ascii.eqb] in Hpre. apply andb_true_iff in Hpre as [_ Hpre].
    apply andb_true_iff in Hpre as [Hc2 _]. apply negb_true_iff in Hc2.
    destruct (Ascii.eqb "m" c); [|done].
    destruct (Ascii.eqb "c" c1); [|done]. by rewrite Hc2.
Qed.

(** X4. For a file name made of a part without underscore, [mc_], digits,
    a dot, a sample name, [.4lep] and a rest in which [.4lep] does not occur
    again, [process] extracts exactly the sample name (which may itself
    contain dots and [.4lep]). *)
Theorem findall_0_exact (pre ds sample post : string) :
  string_forallb (fun c => negb (Ascii.eqb "_" c)) pre = true ->
  ds <> "" -> string_forallb is_digit ds = true ->
  sample <> "" ->
  string_forallb (fun c => negb (is_newline c)) sample = true ->
  (forall a b, post <> a ++ ".4lep" ++ b) ->
  findall_0 (pre ++ "mc_" ++ ds ++ "." ++ sample ++ ".4lep" ++ post)
  = Ok sample.
Proof.
  intros Hpre Hds Hdig Hg Hnl Hpost. unfold findall_0.
  rewrite re_search_skip by exact Hpre.
  assert (match_here ("mc_" ++ ds ++ "." ++ sample ++ ".4lep" ++ post)
          = Some sample) as Hm by by apply match_here_exact.
  cbn [append] in Hm |- *. cbn [re_search]. by rewrite Hm.
Qed.

Lemma findall_0_exact_witness :
  findall_0 (prefix ++ "MC/" ++ "mc_" ++ "410000" ++ "." ++ "ttbar_lep"
             ++ ".4lep" ++ ".root") = Ok "ttbar_lep".
Proof.
  apply (findall_0_exact (prefix ++ "MC/") "410000" "ttbar_lep" ".root");
    try reflexivity; try discriminate.
  intros a b Heq.
  destruct a as [|c1 [|c2 [|c3 [|c4 [|c5 [|c6 a]]]]]]; cbn in Heq;
    discriminate.
Defined.

(** ** The domain of process *)

Section ProcessDomain.
Context `{Numeric}.
Variable infos : gmap string Info.

Lemma event_mllll_is_Some (e : Event) :
  is_Some (event_mllll e) <-> (4 <= length (lep e))%nat.
Proof.
  unfold event_mllll.
  destruct (lep e) as [|a [|b [|c [|d l]]]]; cbn; split;
    try lia; try (intros [? ?]; discriminate); eauto.
Qed.

Lemma mllll_is_Some (evs : list Event) :
  is_Some (mapM event_mllll evs) <->
  Forall (fun e => (4 <= length (lep e))%nat) evs.
Proof.
  rewrite mapM_is_Some. apply Forall_proper; [|done].
  intros e. apply event_mllll_is_Some.
Qed.

Lemma get_xsec_weight_Ok_inv (sample : string) (w : num) :
  get_xsec_weight infos sample = Ok w ->
  exists info,
    infos !! sample = Some info /\
    is_zero (mul (sumw info) (red_eff info)) = false /\
    w = xsec_weight_of info.
Proof.
  unfold get_xsec_weight, getitem, truediv.
  destruct (infos !! sample) as [info|]; cbn [bind]; [|discriminate].
  destruct (is_zero _) eqn:Ez; [discriminate|]. intros [= <-]. eauto.
Qed.

Lemma process_not_index_error (events : Events) (mllll : list num) :
  mapM event_mllll (selected events) = Some mllll ->
  process infos events <> Raise (ValueError "index out of range").
Proof.
  intros Hm Hp. rewrite process_eq, Hm in Hp. cbn zeta in Hp.
  destruct (String.eqb _ "Data"); [discriminate|].
  unfold findall_0 in Hp.
  destruct (re_search _) as [sample|]; cbn [bind] in Hp; [|discriminate].
  destruct (get_xsec_weight infos sample) eqn:Ew; cbn [bind] in Hp;
    [discriminate|].
  injection Hp as ->. apply get_xsec_weight_raises in Ew.
  destruct Ew; discriminate.
Qed.
End ProcessDomain.

(** X5. [process] raises the [ValueError] of [leptons[:, k]] out of range
    exactly when an
    event that passes the selection has fewer than four leptons; the events
    the selection drops may have any number of leptons. *)
Theorem process_index_error_iff `{Numeric} (infos : gmap string Info)
    (events : Events) :
  process infos events = Raise (ValueError "index out of range") <->
  Exists (fun e => (length (lep e) < 4)%nat) (selected events).
Proof.
  destruct (mapM event_mllll (selected events)) as [mllll|] eqn:Em.
  - split.
    + intros Hp. by destruct (process_not_index_error infos events mllll Em).
    + intros Hex. exfalso.
      assert (is_Some (mapM event_mllll (selected events))) as Hs by eauto.
      apply mllll_is_Some in Hs. rewrite Forall_forall in Hs.
      apply Exists_exists in Hex as (e & He & Hlt). apply Hs in He. lia.
  - split.
    + intros _. apply mapM_None_1 in Em.
      eapply Exists_impl; [exact Em|]. intros e He. cbn beta in He.
      destruct (decide (4 <= length (lep e))%nat) as [Hge|]; [|lia].
      apply event_mllll_is_Some in Hge as [m Hm]. congruence.
    + intros _. rewrite process_eq, Em. reflexivity.
Qed.

Example process_short_event_dropped :
  exists out,
    process Sample.infos
      {| metadata := metadata (Sample.batch "Data");
         rows := [ Sample.ev1;
                   {| lep := [ Sample.lepton "a" 1 11 ];
                      mcWeight := Sym.SVar "w"; scaleFactor := Sym.SVar "sf";
                      scaleFactorUP := Sym.SVar "up";
                      scaleFactorDOWN := Sym.SVar "down" |} ] |} = Ok out /\
    length (Hist.entries (data out)) = 1%nat.
Proof. eexists. split; reflexivity. Qed.

(** X6. [process] returns exactly when every event that passes the
    selection has at least four leptons and, unless the category is "Data",
    the file name gives a sample of the table whose divisor is not zero. *)
Theorem process_returns_iff `{Numeric} (infos : gmap string Info)
    (events : Events) :
  (exists out, process infos events = Ok out) <->
  Forall (fun e => (4 <= length (lep e))%nat) (selected events) /\
  (dataset_category (metadata events) = "Data" \/
   exists sample info, sample_known infos events sample info).
Proof.
  rewrite process_eq, <- mllll_is_Some. split.
  - intros [out Hp].
    destruct (mapM event_mllll (selected events)) as [mllll|]; [|discriminate].
    split; [eauto|]. cbn zeta in Hp.
    destruct (String.eqb _ "Data") eqn:Ec; [left; by apply String.eqb_eq|].
    right. destruct (findall_0 _) as [sample|] eqn:Ef; [|discriminate].
    cbn [bind] in Hp.
    destruct (get_xsec_weight infos sample) as [w|] eqn:Ew; [|discriminate].
    apply get_xsec_weight_Ok_inv in Ew as (info & Hin & Hz & _).
    exists sample, info. by repeat split.
  - intros [[mllll ->] Hside]. cbn zeta.
    destruct (String.eqb _ "Data") eqn:Ec; [eauto|].
    destruct Hside as [Hd|(sample & info & Hs)];
      [apply String.eqb_eq in Hd; congruence|].
    pose proof (get_xsec_weight_known infos events sample info Hs) as Hw.
    destruct Hs as (-> & _). cbn [bind]. rewrite Hw. cbn [bind]. eauto.
Qed.

(** X7. For a "Data" batch [process] reads neither the file name nor the
    table: with another file name and another table the outcome is the
    same. *)
Theorem process_Data_ignores_sample `{Numeric} (infos infos' : gmap string Info)
    (events : Events) (name : string) :
  dataset_category (metadata events) = "Data" ->
  process infos events =
  process infos'
    {| metadata := {| dataset_category := "Data"; filename := name |};
       rows := rows events |}.
Proof.
  intros Hcat. rewrite !process_eq. cbn [metadata dataset_category].
  change (selected {| metadata := _; rows := rows events |})
    with (selected events).
  destruct (mapM event_mllll (selected events)); [|reflexivity].
  cbn zeta. rewrite Hcat. reflexivity.
Qed.

Lemma process_Data_ignores_sample_witness :
  process Sample.infos (Sample.batch "Data") =
  process ∅
    {| metadata := {| dataset_category := "Data"; filename := "" |};
       rows := rows (Sample.batch "Data") |}.
Proof.
  apply (process_Data_ignores_sample Sample.infos ∅ (Sample.batch "Data") "").
  reflexivity.
Defined.

(** ** What process puts into the histograms *)




(** ** Processing a batch in chunks *)

Section Chunks.
Context `{Numeric}.

Lemma mapM_app_Some {A B} (f : A -> option B) (l1 l2 : list A) (k : list B) :
  mapM f (l1 ++ l2) = Some k ->
  exists k1 k2,
    mapM f l1 = Some k1 /\ mapM f l2 = Some k2 /\ k = (k1 ++ k2)%list.
Proof.
  rewrite mapM_Some. intros (k1 & k2 & H1 & H2 & ->)%Forall2_app_inv_l.
  exists k1, k2. by rewrite !mapM_Some.
Qed.

Lemma selected_with_rows (events : Events) (rs : list Event) :
  selected (with_rows events rs) =
  List.filter (fun e => passes (charge <$> lep e) (typeid <$> lep e)) rs.
Proof. reflexivity. Qed.

Lemma fill_entries_app {A B C} (g : A -> B -> C) (m1 m2 : list A)
    (w1 w2 : list B) :
  length m1 = length w1 ->
  zip_with g (m1 ++ m2) (w1 ++ w2) =
  (zip_with g m1 w1 ++ zip_with g m2 w2)%list.
Proof. intros Hlen. by apply zip_with_app. Qed.
End Chunks.

(** X9. A batch may be processed in chunks: when [process] returns on a
    batch, it returns on its first part and on the rest (with the same
    metadata), the two outputs have histograms that can be added, and the
    sums hold the same entries as the output for the whole batch, up to
    their order. *)
Theorem process_chunks `{Numeric} (infos : gmap string Info) (events : Events)
    (rows1 rows2 : list Event) (out : Output) :
  process infos (with_rows events (rows1 ++ rows2)) = Ok out ->
  exists (out1 out2 : Output) (d m : Hist.t),
    process infos (with_rows events rows1) = Ok out1 /\
    process infos (with_rows events rows2) = Ok out2 /\
    Hist.add (data out1) (data out2) = Ok d /\
    Hist.add (MC out1) (MC out2) = Ok m /\
    Hist.entries d ≡ₚ Hist.entries (data out) /\
    Hist.entries m ≡ₚ Hist.entries (MC out).
Proof.
  rewrite !process_eq, !selected_with_rows, List.filter_app.
  set (s1 := List.filter _ rows1). set (s2 := List.filter _ rows2).
  destruct (mapM event_mllll (s1 ++ s2)) as [mllll|] eqn:Em; [|discriminate].
  apply mapM_app_Some in Em as (m1 & m2 & Hm1 & Hm2 & ->).
  rewrite Hm1, Hm2. cbn zeta. cbn [metadata with_rows].
  pose proof (length_mapM _ _ _ Hm1) as L1.
  destruct (String.eqb _ "Data").
  - intros [= <-]. do 4 eexists.
    split; [reflexivity|]. split; [reflexivity|].
    split; [reflexivity|]. split; [reflexivity|].
    split; [|reflexivity].
    unfold Hist.entries, Hist.weights. cbn.
    rewrite !app_nil_r, length_app, replicate_add.
    rewrite fill_entries_app by (by rewrite length_replicate).
    reflexivity.
  - destruct (findall_0 _); [|discriminate]. cbn [bind].
    destruct (get_xsec_weight _ _) as [w|]; [|discriminate]. cbn [bind].
    intros [= <-]. do 4 eexists.
    split; [reflexivity|]. split; [reflexivity|].
    split; [reflexivity|]. split; [reflexivity|].
    split; [reflexivity|].
    unfold Hist.entries, Hist.weights, MC_fills, event_weights. cbn.
    rewrite !fmap_app.
    rewrite !fill_entries_app by (rewrite !length_fmap; lia).
    rewrite !app_nil_r. solve_Permutation.
Qed.

Lemma process_chunks_witness :
  exists (out out1 out2 : Output) (m : Hist.t),
    process Sample.infos (Sample.batch signal) = Ok out /\
    process Sample.infos (with_rows (Sample.batch signal) [Sample.ev1])
      = Ok out1 /\
    process Sample.infos (with_rows (Sample.batch signal) [Sample.ev2])
      = Ok out2 /\
    Hist.add (MC out1) (MC out2) = Ok m /\
    Hist.entries m ≡ₚ Hist.entries (MC out).
Proof.
  destruct (process Sample.infos (Sample.batch signal)) as [out|] eqn:Ep;
    [|vm_compute in Ep; discriminate].
  destruct (process_chunks Sample.infos (Sample.batch signal)
              [Sample.ev1] [Sample.ev2] out Ep)
    as (out1 & out2 & d & m & H1 & H2 & _ & Hm & _ & HP).
  by exists out, out1, out2, m.
Defined.

(** ** From the tree to the histograms *)

Section FromTree.
Context `{Numeric}.

Lemma filter_filter_andb {A} (p q : A -> bool) (l : list A) :
  List.filter q (List.filter p l) = List.filter (fun x => p x && q x) l.
Proof.
  induction l as [|x l IH]; [reflexivity|].
  cbn. destruct (p x); cbn; [destruct (q x)|]; by rewrite IH.
Qed.

Lemma Forall2_filter_compat {A B} (R : A -> B -> Prop) (p : A -> bool)
    (q : B -> bool) (l : list A) (k : list B) :
  Forall2 R l k -> (forall x y, R x y -> p x = q y) ->
  Forall2 R (List.filter p l) (List.filter q k).
Proof.
  intros HR Hpq. induction HR as [|x y l k Hxy _ IH]; [constructor|].
  cbn. rewrite <- (Hpq x y Hxy). destruct (p x); [constructor|]; done.
Qed.

Lemma Forall2_fmap_eq {A B C} (f : A -> C) (g : B -> C) (l : list A)
    (k : list B) :
  Forall2 (fun x y => f x = g y) l k -> f <$> l = g <$> k.
Proof. induction 1 as [|x y l k Hxy _ IH]; [reflexivity|]. cbn. congruence. Qed.

(** The event the processor reads for an event of the tree: the same
    charges, types and weight, and the scale factors the query computed. *)
Lemma query_events (md : Metadata) (source : list Tree.event) :
  Forall Tree.well_formed source ->
  exists events,
    events_of_rows md (get_lepton_query source) = Ok events /\
    metadata events = md /\
    Forall2
      (fun e ev =>
         charge <$> lep ev = Tree.lep_charge e /\
         typeid <$> lep ev = Tree.lep_type e /\
         length (lep ev) = 4%nat /\
         mcWeight ev = Tree.mcWeight e /\
         scaleFactor ev = scale_factor_product e /\
         scaleFactorUP ev = mul (scale_factor_product e) (lit (11 # 10)) /\
         scaleFactorDOWN ev = mul (scale_factor_product e) (lit (9 # 10)))
      (List.filter (fun e => Z.eqb (Tree.lep_n e) 4) source) (rows events).
Proof.
  intros Hwf. unfold events_of_rows.
  enough (exists evs,
             sequence (map event_of_row (get_lepton_query source)) = Ok evs /\
             Forall2
               (fun e ev =>
                  charge <$> lep ev = Tree.lep_charge e /\
                  typeid <$> lep ev = Tree.lep_type e /\
                  length (lep ev) = 4%nat /\
                  mcWeight ev = Tree.mcWeight e /\
                  scaleFactor ev = scale_factor_product e /\
                  scaleFactorUP ev = mul (scale_factor_product e) (lit (11 # 10)) /\
                  scaleFactorDOWN ev = mul (scale_factor_product e) (lit (9 # 10)))
               (List.filter (fun e => Z.eqb (Tree.lep_n e) 4) source) evs)
    as (evs & -> & HR).
  { eexists. split; [reflexivity|]. split; [reflexivity|exact HR]. }
  unfold get_lepton_query, Select, Where.
  induction Hwf as [|e source He _ (evs & IH & HR)];
    [exists []; split; [reflexivity|constructor]|].
  cbn [List.filter]. destruct (Z.eqb (Tree.lep_n e) 4) eqn:En;
    [|exists evs; auto].
  apply Z.eqb_eq in En. destruct He as (Hpt & Heta & Hphi & HE & Hq & Ht).
  rewrite En in *. cbn [map sequence]. rewrite IH.
  destruct e as [n pts etas phis Es qs ts w s1 s2 s3 s4]. cbn in *.
  destruct pts as [|? [|? [|? [|? [|? ?]]]]]; cbn in Hpt; try lia.
  destruct etas as [|? [|? [|? [|? [|? ?]]]]]; cbn in Heta; try lia.
  destruct phis as [|? [|? [|? [|? [|? ?]]]]]; cbn in Hphi; try lia.
  destruct Es as [|? [|? [|? [|? [|? ?]]]]]; cbn in HE; try lia.
  destruct qs as [|? [|? [|? [|? [|? ?]]]]]; cbn in Hq; try lia.
  destruct ts as [|? [|? [|? [|? [|? ?]]]]]; cbn in Ht; try lia.
  eexists. split; [reflexivity|].
  constructor; [|exact HR]. cbn. by repeat split.
Qed.

Lemma query_selected (md : Metadata) (source : list Tree.event)
    (events : Events) :
  Forall Tree.well_formed source ->
  events_of_rows md (get_lepton_query source) = Ok events ->
  metadata events = md /\
  four_leptons events /\
  Forall2
    (fun e ev =>
       mcWeight ev = Tree.mcWeight e /\
       scaleFactor ev = scale_factor_product e /\
       scaleFactorUP ev = mul (scale_factor_product e) (lit (11 # 10)) /\
       scaleFactorDOWN ev = mul (scale_factor_product e) (lit (9 # 10)))
    (tree_selected source) (selected events).
Proof.
  intros Hwf Hev.
  destruct (query_events md source Hwf) as (events' & Hev' & Hmd & HR).
  assert (events' = events) as -> by congruence.
  split; [exact Hmd|]. split.
  - unfold four_leptons. clear -HR.
    induction HR as [|e ev l k Hxy _ IH]; constructor; [apply Hxy|exact IH].
  - unfold tree_selected, selected. rewrite <- filter_filter_andb.
    eapply Forall2_impl.
    + eapply (Forall2_filter_compat _
                (fun e => passes (Tree.lep_charge e) (Tree.lep_type e))
                (fun ev => passes (charge <$> lep ev) (typeid <$> lep ev)));
        [exact HR|].
      cbn beta. intros e ev (-> & -> & _). reflexivity.
    + cbn beta. intros e ev (_ & _ & _ & Hrest). exact Hrest.
Qed.
End FromTree.

(** X10. From the tree to the data histogram: for a well-formed tree and
    "Data" metadata, the delivered events can be read and processed, each
    event of the tree with four leptons recorded that passes the selection
    makes exactly one entry of the data histogram, no other event makes one,
    and the MC histogram has no entry. *)
Theorem tree_to_data_histogram `{Numeric} (infos : gmap string Info)
    (md : Metadata) (source : list Tree.event) :
  Forall Tree.well_formed source ->
  dataset_category md = "Data" ->
  exists (events : Events) (out : Output),
    events_of_rows md (get_lepton_query source) = Ok events /\
    process infos events = Ok out /\
    length (Hist.entries (data out)) = length (tree_selected source) /\
    Hist.entries (MC out) = [].
Proof.
  intros Hwf Hcat.
  destruct (query_events md source Hwf) as (events & Hev & Hmd & _).
  destruct (query_selected md source events Hwf Hev) as (_ & H4 & HR).
  rewrite <- Hmd in Hcat.
  destruct (process_Data infos events Hcat H4) as (mllll & Hm & Hp).
  exists events. eexists. split; [exact Hev|]. split; [exact Hp|].
  split; [|reflexivity].
  unfold Hist.entries, Hist.weights. cbn. rewrite app_nil_r.
  rewrite length_zip_with, length_replicate.
  apply length_mapM in Hm. apply Forall2_length in HR. lia.
Qed.

Lemma tree_to_data_histogram_witness :
  exists (events : Events) (out : Output),
    events_of_rows (metadata (Sample.batch "Data"))
      (get_lepton_query Sample.tree) = Ok events /\
    process Sample.infos events = Ok out /\
    length (Hist.entries (data out)) = 1%nat.
Proof.
  destruct (tree_to_data_histogram Sample.infos (metadata (Sample.batch "Data"))
              Sample.tree) as (events & out & Hev & Hp & Hn & _).
  - repeat constructor.
  - reflexivity.
  - by exists events, out.
Defined.

(** X11. From the tree to the MC weights: for a well-formed tree and the
    metadata of a simulated sample with weight [w], the weights of the
    nominal, m4lUP and m4lDOWN fills are [(w * mcWeight) * sf] over the
    events of the tree that have four leptons recorded and pass the
    selection, [sf] being the product of the event's four scale factors;
    those of the scaleFactorUP and scaleFactorDOWN fills have [sf * 1.1]
    and [sf * 0.9] in the place of [sf]. *)
Theorem tree_to_MC_weights `{Numeric} (infos : gmap string Info)
    (md : Metadata) (source : list Tree.event) (sample : string)
    (info : Info) :
  Forall Tree.well_formed source ->
  dataset_category md <> "Data" ->
  findall_0 (filename md) = Ok sample ->
  infos !! sample = Some info ->
  is_zero (mul (sumw info) (red_eff info)) = false ->
  exists (events : Events) (out : Output),
    events_of_rows md (get_lepton_query source) = Ok events /\
    process infos events = Ok out /\
    let w := xsec_weight_of info in
    let weights_with (f : num -> num) :=
      (fun e => mul (mul w (Tree.mcWeight e)) (f (scale_factor_product e)))
        <$> tree_selected source in
    (fun f => (Hist.variation f, Hist.weight f)) <$> Hist.fills (MC out) =
    [ (Some "nominal", Some (weights_with (fun sf => sf)));
      (Some "scaleFactorUP",
       Some (weights_with (fun sf => mul sf (lit (11 # 10)))));
      (Some "scaleFactorDOWN",
       Some (weights_with (fun sf => mul sf (lit (9 # 10)))));
      (Some "m4lUP", Some (weights_with (fun sf => sf)));
      (Some "m4lDOWN", Some (weights_with (fun sf => sf))) ].
Proof.
  intros Hwf Hcat Hf Hin Hz.
  destruct (query_events md source Hwf) as (events & Hev & Hmd & _).
  destruct (query_selected md source events Hwf Hev) as (_ & H4 & HR).
  rewrite <- Hmd in Hcat, Hf.
  destruct (process_MC infos events sample info Hcat H4) as (mllll & Hm & Hp);
    [by repeat split|].
  exists events. eexists. split; [exact Hev|]. split; [exact Hp|].
  cbn -[tree_selected selected]. unfold event_weights.
  repeat f_equal; symmetry; apply Forall2_fmap_eq;
    (eapply Forall2_impl; [exact HR|]); cbn beta;
    intros e ev (Hw & Hs & Hu & Hd); rewrite Hw, ?Hs, ?Hu, ?Hd; reflexivity.
Qed.

Lemma tree_to_MC_weights_witness :
  exists (events : Events) (out : Output),
    events_of_rows (metadata (Sample.batch signal))
      (get_lepton_query Sample.tree) = Ok events /\
    process Sample.infos events = Ok out /\
    Hist.weight <$> Hist.fills (MC out) !! 1%nat =
    Some (Some [ Sym.SMul
                   (Sym.SMul
                      (Sym.SDiv (Sym.SMul (Sym.SLit 10000) (Sym.SVar "xsec"))
                         (Sym.SMul (Sym.SVar "sumw") (Sym.SVar "red_eff")))
                      (Sym.SVar "w"))
                   (Sym.SMul
                      (Sym.SMul
                         (Sym.SMul
                            (Sym.SMul (Sym.SVar "ele") (Sym.SVar "muon"))
                            (Sym.SVar "trig"))
                         (Sym.SVar "pileup"))
                      (Sym.SLit (11 # 10))) ]).
Proof.
  destruct (tree_to_MC_weights Sample.infos (metadata (Sample.batch signal))
              Sample.tree "ggH125_ZZ4lep" Sample.ggH)
    as (events & out & Hev & Hp & Hw).
  - repeat constructor.
  - discriminate.
  - reflexivity.
  - reflexivity.
  - reflexivity.
  - exists events, out. split; [exact Hev|]. split; [exact Hp|].
    cbn zeta in Hw.
    apply (f_equal (fun l => snd <$> l !! 1%nat)) in Hw.
    rewrite list_lookup_fmap in Hw. rewrite <- option_fmap_compose in Hw.
    exact Hw.
Defined.

(** ** Gathering the jobs *)

Section GatherFacts.
Context {A : Type}.

Lemma sequence_Ok_inv (l : list (result A)) (xs : list A) :
  sequence l = Ok xs -> l = Ok <$> xs.
Proof.
  revert xs. induction l as [|r l IH]; intros xs; cbn.
  - by intros [= <-].
  - destruct r as [x|e]; cbn [bind]; [|discriminate].
    destruct (sequence l) as [ys|e]; cbn [bind]; [|discriminate].
    intros [= <-]. cbn. by rewrite (IH ys).
Qed.

Lemma sequence_Raise_inv (l : list (result A)) (e : exn) :
  sequence l = Raise e -> exists i, l !! i = Some (Raise e).
Proof.
  induction l as [|r l IH]; cbn; [discriminate|].
  destruct r as [x|e']; cbn [bind].
  - destruct (sequence l) as [ys|e']; cbn [bind]; [discriminate|].
    intros [= <-]. destruct (IH eq_refl) as [i Hi]. by exists (S i).
  - intros [= <-]. by exists 0%nat.
Qed.

Lemma first_raised_Some (order : list nat) (l : list (result A)) (e : exn) :
  first_raised order l = Some e ->
  exists i, i ∈ order /\ l !! i = Some (Raise e).
Proof.
  induction order as [|i order IH]; cbn; [discriminate|].
  destruct (l !! i) as [[x|e']|] eqn:Ei.
  - intros (j & Hj & Hl)%IH. exists j. split; [by right|done].
  - intros [= <-]. exists i. split; [by left|done].
  - intros (j & Hj & Hl)%IH. exists j. split; [by right|done].
Qed.

Lemma gather_Raise_inv (order : list nat) (l : list (result A)) (e : exn) :
  gather order l = Raise e -> exists i, l !! i = Some (Raise e).
Proof.
  unfold gather. destruct (first_raised order l) as [e'|] eqn:Ef.
  - intros [= <-]. apply first_raised_Some in Ef as (i & _ & Hi). eauto.
  - apply sequence_Raise_inv.
Qed.

Lemma gather_Ok_inv (order : list nat) (l : list (result A)) (xs : list A) :
  gather order l = Ok xs -> l = Ok <$> xs.
Proof.
  unfold gather. destruct (first_raised order l); [discriminate|].
  apply sequence_Ok_inv.
Qed.

(** When the jobs that raise all raise the same exception, and one does,
    that exception comes out whatever the order of completion. *)
Lemma gather_same_failure (order : list nat) (l : list (result A)) (e : exn)
    (i : nat) :
  l !! i = Some (Raise e) ->
  (forall j e', l !! j = Some (Raise e') -> e' = e) ->
  gather order l = Raise e.
Proof.
  intros Hi Hsame. destruct (gather order l) as [xs|e'] eqn:Eg.
  - apply gather_Ok_inv in Eg. subst l.
    rewrite list_lookup_fmap in Hi. destruct (xs !! i); discriminate.
  - apply gather_Raise_inv in Eg as [j Hj]. by rewrite (Hsame j e' Hj).
Qed.

Lemma sequence_same_failure (l : list (result A)) (e : exn) (i : nat) :
  l !! i = Some (Raise e) ->
  (forall j e', l !! j = Some (Raise e') -> e' = e) ->
  sequence l = Raise e.
Proof.
  intros Hi Hsame. destruct (sequence l) as [xs|e'] eqn:Es.
  - apply sequence_Ok_inv in Es. subst l.
    rewrite list_lookup_fmap in Hi. destruct (xs !! i); discriminate.
  - apply sequence_Raise_inv in Es as [j Hj]. by rewrite (Hsame j e' Hj).
Qed.
End GatherFacts.

(** X12. [gather] returns only when every job has returned, and then the
    jobs' results in the order of the jobs, whatever the order they
    complete in; an exception it raises is the exception of one of the
    jobs. *)
Theorem gather_outcome {A} (order : list nat) (aws : list (result A)) :
  (forall xs, gather order aws = Ok xs <-> aws = Ok <$> xs) /\
  (forall e, gather order aws = Raise e ->
             exists i, aws !! i = Some (Raise e)).
Proof.
  split.
  - intros xs. split; [apply gather_Ok_inv|].
    intros ->. unfold gather.
    assert (first_raised order (Ok <$> xs) = None) as ->.
    { induction order as [|i order IH]; [reflexivity|].
      cbn. rewrite list_lookup_fmap. destruct (xs !! i); exact IH. }
    induction xs as [|x xs IH]; [reflexivity|]. cbn. by rewrite IH.
  - apply gather_Raise_inv.
Qed.

(** X13. The exception [gather] raises is that of the first job to raise in
    the order of completion: when the jobs that completed before job [i]
    all returned and job [i] raised [e], [gather] raises [e], whatever the
    later jobs do. *)
Theorem gather_first_failure {A} (completed rest : list nat) (i : nat)
    (aws : list (result A)) (e : exn) :
  (forall j, j ∈ completed -> forall e', aws !! j <> Some (Raise e')) ->
  aws !! i = Some (Raise e) ->
  gather (completed ++ i :: rest)%list aws = Raise e.
Proof.
  intros Hdone Hi. unfold gather.
  assert (first_raised (completed ++ i :: rest) aws = Some e) as ->;
    [|reflexivity].
  induction completed as [|j completed IH]; cbn.
  - by rewrite Hi.
  - destruct (aws !! j) as [[x|e']|] eqn:Ej.
    + apply IH. intros k Hk. apply Hdone. by right.
    + destruct (Hdone j ltac:(by left) e' Ej).
    + apply IH. intros k Hk. apply Hdone. by right.
Qed.

Lemma gather_first_failure_witness :
  gather ([2%nat; 0%nat] ++ 3%nat :: [1%nat])%list
    [Ok 1; Raise (KeyError "a"); Ok 2; Raise ZeroDivisionError]
  = Raise ZeroDivisionError.
Proof.
  apply gather_first_failure; [|reflexivity].
  intros j Hj e' He'.
  apply elem_of_cons in Hj as [->|Hj]; [discriminate|].
  apply elem_of_cons in Hj as [->|Hj]; [discriminate|].
  by apply elem_of_nil in Hj.
Defined.

(** ** Failures of produce_all_histograms *)

Section ProduceFailures.
Context `{Numeric}.
Variable DataSource : Type.
Variable make_datasource :
  list (string * list string) -> string ->
  (list Tree.event -> list Column.row) -> DataSource.
Variable source_category : DataSource -> string.
Variable execute : (Events -> result Output) -> DataSource -> stream Output.
Variable order : list nat.
Variable infos : gmap string Info.

Lemma jobs_lookup (fs : list (string * list string)) (i : nat) :
  jobs DataSource make_datasource source_category execute infos fs !! i =
  (fun ds_name =>
     let source := make_datasource fs ds_name get_lepton_query in
     run_updates_stream (execute (process infos) source)
                        (source_category source)) <$> keys fs !! i.
Proof.
  unfold jobs, datasources. rewrite !list_lookup_fmap.
  by destruct (keys fs !! i).
Qed.

Lemma produce_one_failure_for (fs : list (string * list string))
    (ds_name : string) (e : exn) :
  ds_name ∈ keys fs ->
  raised (execute (process infos) (make_datasource fs ds_name get_lepton_query))
    = Some e ->
  is_Exception e = true ->
  (forall k, k ∈ keys fs -> k <> ds_name ->
     raised (execute (process infos) (make_datasource fs k get_lepton_query))
     = None) ->
  produce_all_histograms_for DataSource make_datasource source_category
    execute order infos fs =
  Raise (Failure
           ("Failure while processing " ++
            source_category (make_datasource fs ds_name get_lepton_query)) e).
Proof.
  intros Hin Hr He Hothers. unfold produce_all_histograms_for.
  apply list_elem_of_lookup in Hin as [i Hi].
  erewrite (gather_same_failure order _ _ i); [reflexivity| |].
  - rewrite jobs_lookup, Hi. cbn. unfold run_updates_stream.
    by rewrite Hr, He.
  - intros j e'. rewrite jobs_lookup.
    destruct (keys fs !! j) as [k|] eqn:Ek; [|discriminate]. cbn.
    destruct (decide (k = ds_name)) as [->|Hne].
    + unfold run_updates_stream. rewrite Hr, He. by intros [= <-].
    + unfold run_updates_stream.
      rewrite (Hothers k) by (by eapply list_elem_of_lookup_2 || done).
      discriminate.
Qed.

Lemma produce_no_item_for (fs : list (string * list string))
    (ds_name : string) :
  (forall k, k ∈ keys fs ->
     raised (execute (process infos) (make_datasource fs k get_lepton_query))
     = None) ->
  ds_name ∈ keys fs ->
  yielded (execute (process infos) (make_datasource fs ds_name get_lepton_query))
    = [] ->
  produce_all_histograms_for DataSource make_datasource source_category
    execute order infos fs =
  Raise (TypeError "'NoneType' object is not subscriptable").
Proof.
  intros Hends Hin Hy. unfold produce_all_histograms_for.
  set (item := fun k =>
         last (yielded (execute (process infos)
                          (make_datasource fs k get_lepton_query)))).
  assert (jobs DataSource make_datasource source_category execute infos fs
          = Ok <$> (item <$> keys fs)) as ->.
  { unfold jobs, datasources. rewrite <- !list_fmap_compose.
    apply list_eq. intros i. rewrite !list_lookup_fmap.
    destruct (keys fs !! i) as [k|] eqn:Ek; [|reflexivity]. cbn.
    unfold run_updates_stream.
    by rewrite (Hends k) by (by eapply list_elem_of_lookup_2). }
  rewrite gather_Ok. cbn [bind].
  apply list_elem_of_lookup in Hin as [i Hi].
  erewrite (sequence_same_failure _ _ i); [reflexivity| |].
  - rewrite !list_lookup_fmap, Hi. cbn. unfold item. by rewrite Hy.
  - intros j e'. rewrite !list_lookup_fmap.
    destruct (keys fs !! j) as [k|]; [|discriminate]. cbn.
    destruct (item k); cbn; [discriminate|]. by intros [= <-].
Qed.
End ProduceFailures.

(** X14. When the stream of one category raises an [Exception] and the
    streams of the other categories end, [produce_all_histograms] raises
    [Exception("Failure while processing " + category)] for that category,
    with the stream's exception as its cause, whatever the order in which
    the jobs complete. *)
Theorem produce_all_histograms_one_failure `{Numeric} (DataSource : Type)
    (make_datasource :
       list (string * list string) -> string ->
       (list Tree.event -> list Column.row) -> DataSource)
    (source_category : DataSource -> string)
    (execute : (Events -> result Output) -> DataSource -> stream Output)
    (order : list nat) (infos : gmap string Info)
    (ds_name : string) (e : exn) :
  ds_name ∈ keys fileset ->
  raised (execute (process infos)
            (make_datasource fileset ds_name get_lepton_query)) = Some e ->
  is_Exception e = true ->
  (forall k, k ∈ keys fileset -> k <> ds_name ->
     raised (execute (process infos)
               (make_datasource fileset k get_lepton_query)) = None) ->
  produce_all_histograms DataSource make_datasource source_category execute
    order infos =
  Raise (Failure
           ("Failure while processing " ++
            source_category (make_datasource fileset ds_name get_lepton_query))
           e).
Proof. apply produce_one_failure_for. Qed.

Lemma produce_all_histograms_one_failure_witness :
  produce_all_histograms string (fun _ ds_name _ => ds_name) id
    (fun processor source =>
       if String.eqb source zzstar
       then {| yielded := []; raised := Some (KeyError "llll") |}
       else Sample.execute processor source)
    [3; 2; 1; 0]%nat Sample.infos =
  Raise (Failure ("Failure while processing " ++ zzstar) (KeyError "llll")).
Proof.
  apply (produce_all_histograms_one_failure string (fun _ ds_name _ => ds_name)
           id _ [3; 2; 1; 0]%nat Sample.infos zzstar (KeyError "llll")).
  - set_solver.
  - reflexivity.
  - reflexivity.
  - intros k Hk Hne.
    repeat (apply elem_of_cons in Hk as [->|Hk]; [try done; reflexivity|]).
    by apply elem_of_nil in Hk.
Defined.

(** X15. When every stream ends without an exception but one of them has
    yielded nothing, [run_updates_stream] gives [None] for it and
    [produce_all_histograms] raises the [TypeError] of subscripting
    [None]. *)
Theorem produce_all_histograms_no_item `{Numeric} (DataSource : Type)
    (make_datasource :
       list (string * list string) -> string ->
       (list Tree.event -> list Column.row) -> DataSource)
    (source_category : DataSource -> string)
    (execute : (Events -> result Output) -> DataSource -> stream Output)
    (order : list nat) (infos : gmap string Info) (ds_name : string) :
  (forall k, k ∈ keys fileset ->
     raised (execute (process infos)
               (make_datasource fileset k get_lepton_query)) = None) ->
  ds_name ∈ keys fileset ->
  yielded (execute (process infos)
             (make_datasource fileset ds_name get_lepton_query)) = [] ->
  run_updates_stream
    (execute (process infos) (make_datasource fileset ds_name get_lepton_query))
    (source_category (make_datasource fileset ds_name get_lepton_query))
  = Ok None /\
  produce_all_histograms DataSource make_datasource source_category execute
    order infos =
  Raise (TypeError "'NoneType' object is not subscriptable").
Proof.
  intros Hends Hin Hy. split.
  - unfold run_updates_stream. by rewrite (Hends ds_name Hin), Hy.
  - by eapply produce_no_item_for.
Qed.

Lemma produce_all_histograms_no_item_witness :
  produce_all_histograms string (fun _ ds_name _ => ds_name) id
    (fun processor source =>
       if String.eqb source "Data"
       then {| yielded := []; raised := None |}
       else Sample.execute processor source)
    [0; 1; 2; 3]%nat Sample.infos =
  Raise (TypeError "'NoneType' object is not subscriptable").
Proof.
  apply (produce_all_histograms_no_item string (fun _ ds_name _ => ds_name)
           id _ [0; 1; 2; 3]%nat Sample.infos "Data").
  - intros k Hk.
    repeat (apply elem_of_cons in Hk as [->|Hk]; [reflexivity|]).
    by apply elem_of_nil in Hk.
  - set_solver.
  - reflexivity.
Defined.

(** ** Summing histograms *)

Lemma sum_from_mismatch `{Numeric} (hs : list Hist.t) (g : Hist.t) :
  ~ Forall (fun h => Hist.axes h = Hist.axes g) hs ->
  sum_from (Histogram g) hs = Raise (ValueError "axes not mergeable").
Proof.
  revert g. induction hs as [|h hs IH]; intros g Hno;
    [destruct Hno; constructor|].
  cbn [sum_from radd]. unfold Hist.add.
  destruct (decide (Hist.axes g = Hist.axes h)) as [Heq|Hne].
  - rewrite bool_decide_eq_true_2 by exact Heq. cbn [bind].
    apply IH. cbn [Hist.axes]. intros Hall. apply Hno.
    constructor; [done|exact Hall].
  - rewrite bool_decide_eq_false_2 by exact Hne. reflexivity.
Qed.

(** X16. Python's [sum] over histograms: of no histogram it is the number
    0; of histograms that all have the axes of the first it is the
    histogram with these axes and the fills of all of them, in their order;
    and when one of them has other axes it raises the [ValueError] of the
    addition. *)
Theorem sum_outcomes `{Numeric} :
  sum [] = Ok Zero /\
  forall (h : Hist.t) (hs : list Hist.t),
    (Forall (fun g => Hist.axes g = Hist.axes h) hs ->
     sum (h :: hs) =
     Ok (Histogram {| Hist.axes := Hist.axes h;
                      Hist.fills := (h :: hs) ≫= Hist.fills |})) /\
    (~ Forall (fun g => Hist.axes g = Hist.axes h) hs ->
     sum (h :: hs) = Raise (ValueError "axes not mergeable")).
Proof.
  split; [reflexivity|]. intros h hs. split.
  - intros Hall. rewrite (sum_merged (Hist.axes h)); [reflexivity|].
    by constructor.
  - intros Hno. unfold sum. cbn [sum_from radd bind].
    by apply sum_from_mismatch.
Qed.

Example sum_mismatch :
  sum (H := sym_numeric) [Hist.new data_axes; Hist.new MC_axes] =
  Raise (ValueError "axes not mergeable").
Proof. reflexivity. Qed.

(** ** The leptons the mass reads *)

(** X17. The invariant mass reads the first four leptons of an event only:
    leptons beyond the fourth change neither the masses nor whether the
    indexing fails. *)
Theorem calc_mllll_first_four `{Numeric} (leptons : list (list Lepton)) :
  calc_mllll leptons = calc_mllll (take 4 <$> leptons).
Proof.
  induction leptons as [|l leptons IH]; [reflexivity|].
  rewrite fmap_cons, !calc_mllll_cons, <- IH.
  by destruct l as [|a [|b [|c [|d l]]]].
Qed.

Example calc_mllll_fifth_lepton :
  calc_mllll [lep Sample.ev1 ++ [Sample.lepton "x" 1 13]]%list
  = calc_mllll [lep Sample.ev1].
Proof. reflexivity. Qed.

(** ** Failure handling *)

(** C6, amended. The selection, the weighting and the histogram filling
    handle no failure.  In [get_xsec_weight] the exception of the table
    lookup and that of the division come out as they were raised; in
    [process] so do the exception of the lepton indexing, that of taking the
    first match of the file name, and that of [get_xsec_weight]; and
    [process] raises nothing else, in particular no exception of the
    notebook's own.  The one handler is in [run_updates_stream]: whatever
    the stream has yielded, an [Exception] it raises is replaced by
    [Exception("Failure while processing " + name)] with the original as its
    cause, and any other exception passes unchanged; nothing else comes out
    of it.  So when the stream of one category fails,
    [produce_all_histograms] raises the replacement that names the
    category. *)
Theorem failure_handling `{Numeric} (infos : gmap string Info) :
  (forall sample e,
      getitem infos sample = Raise e ->
      get_xsec_weight infos sample = Raise e) /\
  (forall sample info e,
      getitem infos sample = Ok info ->
      truediv (mul (lit 10000) (xsec info)) (mul (sumw info) (red_eff info))
        = Raise e ->
      get_xsec_weight infos sample = Raise e) /\
  (forall events e,
      calc_mllll (lep <$> selected events) = Raise e ->
      process infos events = Raise e) /\
  (forall events mllll e,
      calc_mllll (lep <$> selected events) = Ok mllll ->
      dataset_category (metadata events) <> "Data" ->
      findall_0 (filename (metadata events)) = Raise e ->
      process infos events = Raise e) /\
  (forall events mllll sample e,
      calc_mllll (lep <$> selected events) = Ok mllll ->
      dataset_category (metadata events) <> "Data" ->
      findall_0 (filename (metadata events)) = Ok sample ->
      get_xsec_weight infos sample = Raise e ->
      process infos events = Raise e) /\
  (forall events e,
      process infos events = Raise e ->
      is_Failure e = false /\
      (calc_mllll (lep <$> selected events) = Raise e \/
       findall_0 (filename (metadata events)) = Raise e \/
       exists sample,
         findall_0 (filename (metadata events)) = Ok sample /\
         get_xsec_weight infos sample = Raise e)) /\
  (forall (items : list Output) e name,
      is_Exception e = true ->
      run_updates_stream {| yielded := items; raised := Some e |} name =
      Raise (Failure ("Failure while processing " ++ name) e)) /\
  (forall (items : list Output) e name,
      is_Exception e = false ->
      run_updates_stream {| yielded := items; raised := Some e |} name =
      Raise e) /\
  (forall (s : stream Output) name e,
      run_updates_stream s name = Raise e ->
      exists cause,
        raised s = Some cause /\
        e = if is_Exception cause
            then Failure ("Failure while processing " ++ name) cause
            else cause) /\
  (forall (DataSource : Type)
          (make_datasource :
             list (string * list string) -> string ->
             (list Tree.event -> list Column.row) -> DataSource)
          (source_category : DataSource -> string)
          (execute : (Events -> result Output) -> DataSource -> stream Output)
          (order : list nat) (ds_name : string) (e : exn),
      ds_name ∈ keys fileset ->
      raised (execute (process infos)
                (make_datasource fileset ds_name get_lepton_query)) = Some e ->
      is_Exception e = true ->
      (forall k, k ∈ keys fileset -> k <> ds_name ->
         raised (execute (process infos)
                   (make_datasource fileset k get_lepton_query)) = None) ->
      produce_all_histograms DataSource make_datasource source_category
        execute order infos =
      Raise (Failure
               ("Failure while processing " ++
                source_category
                  (make_datasource fileset ds_name get_lepton_query)) e)).
Proof.
  repeat apply conj.
  - intros sample e Hg. unfold get_xsec_weight. by rewrite Hg.
  - intros sample info e Hg Hd. unfold get_xsec_weight. by rewrite Hg.
  - intros events e Hc. rewrite calc_mllll_spec in Hc.
    rewrite process_eq.
    destruct (mapM event_mllll (selected events)); [discriminate|].
    by injection Hc as <-.
  - intros events mllll e Hc Hcat Hf. rewrite calc_mllll_spec in Hc.
    rewrite process_eq.
    destruct (mapM event_mllll (selected events)); [|discriminate].
    cbn zeta. apply String.eqb_neq in Hcat. by rewrite Hcat, Hf.
  - intros events mllll sample e Hc Hcat Hf Hw. rewrite calc_mllll_spec in Hc.
    rewrite process_eq.
    destruct (mapM event_mllll (selected events)); [|discriminate].
    cbn zeta. apply String.eqb_neq in Hcat. rewrite Hcat, Hf. cbn [bind].
    by rewrite Hw.
  - intros events e He. pose proof (process_raises infos events e He) as Hc.
    split; [|exact Hc].
    destruct Hc as [Hc|[Hf|(sample & _ & Hw)]].
    + apply getitem_col_raises_calc in Hc. by subst e.
    + unfold findall_0 in Hf. destruct (re_search _); [discriminate|].
      by injection Hf as <-.
    + by destruct (get_xsec_weight_raises infos sample e Hw) as [->| ->].
  - intros items e name He. unfold run_updates_stream. cbn. by rewrite He.
  - intros items e name He. unfold run_updates_stream. cbn. by rewrite He.
  - intros s name e. unfold run_updates_stream.
    destruct (raised s) as [cause|]; [|discriminate].
    exists cause. split; [reflexivity|].
    destruct (is_Exception cause); congruence.
  - intros DataSource make_datasource source_category execute order ds_name e.
    apply produce_one_failure_for.
Qed.

Lemma failure_handling_witness :
  process (∅ : gmap string Info) (Sample.batch signal)
  = Raise (KeyError "ggH125_ZZ4lep").
Proof.
  destruct (failure_handling (∅ : gmap string Info))
    as (_ & _ & _ & _ & Hweight & _).
  eapply (Hweight (Sample.batch signal) _ "ggH125_ZZ4lep");
    [reflexivity|discriminate|reflexivity|reflexivity].
Defined.
